(** * GitStory: the message thread component and the page around it

    A shallow embedding of [src/components/tambo/message-thread-full.tsx]
    (the [MessageThreadFull] component: [getRepoContext], the two window
    event effects and [submitWithRepoContext]) and of the top-level page
    [Home].

    The JavaScript the component runs on is modelled as far as the component
    observes it: values with [ToString], [ToBoolean] and property reads,
    completions (normal or thrown), [localStorage], the window's listener
    list, and the calls into the chat SDK recorded as a trace. *)

From Stdlib Require Import String Ascii List ZArith Bool Lia DecimalString.
From stdpp Require Import base option list strings gmap.

Local Open Scope string_scope.
Set Warnings "-register-all".

(** ** JavaScript values *)

(** What a [throw] carries, as far as this program can raise it. *)
Inductive Error : Type :=
| SyntaxError   (* JSON.parse on text that is not JSON *)
| TypeError     (* destructuring null or undefined *)
| SecurityError (* reading window.localStorage when storage is denied *).

(** The outcome of evaluating an expression or a block. *)
Inductive Completion (A : Type) : Type :=
| Normal (a : A)
| Throw (e : Error).
Arguments Normal {A} a.
Arguments Throw {A} e.

Definition cbind {A B} (c : Completion A) (k : A -> Completion B) : Completion B :=
  match c with
  | Normal a => k a
  | Throw e => Throw e
  end.

(** [try { body } catch { handler }] *)
Definition try_catch {A} (body : Completion A) (handler : Error -> Completion A)
  : Completion A :=
  match body with
  | Normal a => Normal a
  | Throw e => handler e
  end.

(** Sequencing is written [x ← c; k]. *)
#[global] Instance completion_bind : MBind Completion :=
  fun A B k c => cbind c k.
#[global] Instance completion_ret : MRet Completion :=
  fun A a => Normal a.

(** A data value: what [JSON.parse] returns, and what an event's [detail]
    holds when it is data (no function among its parts). The number type is
    left to the platform (IEEE doubles in a browser). *)
Inductive JsValue (number : Type) : Type :=
| JUndefined
| JNull
| JBool (b : bool)
| JNumber (n : number)
| JString (s : string)
| JArray (items : list (JsValue number))
| JObject (props : list (string * JsValue number)).
Arguments JUndefined {number}.
Arguments JNull {number}.
Arguments JBool {number} b.
Arguments JNumber {number} n.
Arguments JString {number} s.
Arguments JArray {number} items.
Arguments JObject {number} props.

(** The built-ins the component calls and cannot define itself. *)
Class Platform : Type := {
  number : Type;
  (** Number::toString, as a template literal applies it *)
  Number_toString : number -> string;
  (** ToBoolean on a number: false on +0, -0 and NaN *)
  Number_toBoolean : number -> bool;
  (** JSON.parse: the parsed value, or SyntaxError *)
  JSON_parse : string -> Completion (JsValue number)
}.

Section Values.
Context `{P : Platform}.

Definition Value : Type := JsValue number.

(** Array.prototype.join with separator ["," ] on already rendered items *)
Fixpoint join_comma (l : list string) : string :=
  match l with
  | [] => ""
  | [x] => x
  | x :: rest => x ++ "," ++ join_comma rest
  end.

Fixpoint assoc (k : string) (props : list (string * Value)) : option Value :=
  match props with
  | [] => None
  | (k', v) :: rest => if String.eqb k k' then Some v else assoc k rest
  end.

(** The items of an array rendered from left to right by [item]; the first
    throw is the throw of the whole. *)
Fixpoint renderItems (item : Value -> Completion string) (l : list Value)
    : Completion (list string) :=
  match l with
  | [] => Normal []
  | x :: rest =>
      s ← item x;
      ss ← renderItems item rest;
      Normal (s :: ss)
  end.

(** ToString, as the [${...}] of a template literal applies it.

    An object goes through OrdinaryToPrimitive with hint string: its
    [toString] is called when it is callable, else its [valueOf]. A data
    object inherits both from [Object.prototype], and the inherited
    [toString] gives ["[object Object]"]. An own [toString] property of a
    data object holds data, which is not callable; the inherited [valueOf]
    returns the object itself, which is no primitive, and an own [valueOf]
    is not callable either: a TypeError is thrown.

    An array goes through [Array.prototype.join]: its items rendered from
    left to right, null and undefined as the empty string, the first throw
    of an item being the throw of the whole. *)
Fixpoint ToString (v : Value) : Completion string :=
  match v with
  | JUndefined => Normal "undefined"
  | JNull => Normal "null"
  | JBool true => Normal "true"
  | JBool false => Normal "false"
  | JNumber n => Normal (Number_toString n)
  | JString s => Normal s
  | JArray items =>
      rendered ←
        renderItems (fun x => match x with
                              | JUndefined | JNull => Normal ""
                              | _ => ToString x
                              end) items;
      Normal (join_comma rendered)
  | JObject props =>
      match assoc "toString" props with
      | Some _ => Throw TypeError
      | None => Normal "[object Object]"
      end
  end.

(** ToBoolean, as [if (...)], [&&] and [? :] apply it. *)
Definition ToBoolean (v : Value) : bool :=
  match v with
  | JUndefined | JNull => false
  | JBool b => b
  | JNumber n => Number_toBoolean n
  | JString s => negb (String.eqb s "")
  | JArray _ | JObject _ => true
  end.

(** Reading property [k] of a value that is neither null nor undefined,
    for a name [k] that no built-in prototype defines and that is not an
    array index ([owner], [repo], [branch] and [repoUrl] are such names):
    an object gives its own property, everything else gives undefined. *)
Definition GetV (v : Value) (k : string) : Value :=
  match v with
  | JObject props => default JUndefined (assoc k props)
  | _ => JUndefined
  end.

(** The check an object destructuring pattern [const { ... } = v] makes
    before it reads any property. *)
Definition RequireObjectCoercible (v : Value) : Completion Value :=
  match v with
  | JUndefined | JNull => Throw TypeError
  | _ => Normal v
  end.
End Values.

(** ** The browser window *)

(** [localStorage] holds strings under string keys; reading the
    [localStorage] property itself throws when storage access is denied. *)
Record Window : Type := {
  localStorage : Completion (gmap string string)
}.

(** [None] is the server side, where [typeof window === "undefined"]. *)
Definition Global : Type := option Window.

(** [localStorage.getItem(key)]: the stored string, or null. *)
Definition getItem (w : Window) (key : string) : Completion (option string) :=
  store ← localStorage w; Normal (store !! key).

(** ToBoolean on a [string | null]. *)
Definition truthy (saved : option string) : bool :=
  match saved with
  | Some s => negb (String.eqb s "")
  | None => false
  end.

(** ToString on a [string | null], as [JSON.parse(saved)] and
    [originalValue + repoContext] apply it to their argument. *)
Definition stringOf (saved : option string) : string := default "null" saved.

(** The line feed a ["\n"] escape denotes. *)
Definition LF : string := String (ascii_of_nat 10) EmptyString.

Section GetRepoContext.
Context `{P : Platform}.
(** The URL of line 74: the three substitutions are rendered from left to
    right, the branch only when it is truthy. *)
Definition repoUrlOf (owner repo branch : Value) : Completion string :=
  o ← ToString owner;
  r ← ToString repo;
  tree ← (if ToBoolean branch
          then b ← ToString branch; Normal ("/tree/" ++ b)
          else Normal "");
  Normal ("https://github.com/" ++ o ++ "/" ++ r ++ tree).

(** The string of line 75. *)
Definition repoContextOf (url : string) : string :=
  LF ++ LF ++ "[Repository Context: " ++ url ++ "]".

(** The [try] block of [getRepoContext] (lines 71-76): [Normal (Some s)]
    when it executes [return s], [Normal None] when it runs off its end. *)
Definition getRepoContext_try (w : Window) : Completion (option string) :=
  saved ← getItem w "gitstory-repo";
  if truthy saved then
    parsed ← JSON_parse (stringOf saved);
    obj ← RequireObjectCoercible parsed;
    let owner := GetV obj "owner" in
    let repo := GetV obj "repo" in
    let branch := GetV obj "branch" in
    url ← repoUrlOf owner repo branch;
    Normal (Some (repoContextOf url))
  else
    Normal None.

(** [getRepoContext] (lines 68-81). The result type [string | null] is
    [option string]. *)
Definition getRepoContext (g : Global) : Completion (option string) :=
  match g with
  | None => Normal None
  | Some w =>
      returned ← try_catch (getRepoContext_try w) (fun _ => Normal None);
      match returned with
      | Some s => Normal (Some s)
      | None => Normal None
      end
  end.
End GetRepoContext.

(** ** The chat SDK and timers *)

(** The argument of [submit] (line 119):
    [{ streamResponse?: boolean; resourceNames: Record<string, string> }]. *)
Record SubmitOptions : Type := {
  streamResponse : option bool;
  resourceNames : gmap string string
}.

(** What a handler does to the world outside the component: the calls into
    the SDK hooks [useTamboThread] and [useTamboThreadInput], and the timers
    it waits for. What the SDK does inside a call is not the component's. *)
Inductive Call : Type :=
| CallStartNewThread
| CallSetValue (v : string)
| CallSetTimeout (ms : nat)
| CallSubmit (options : SubmitOptions).

(** One invocation of a handler: the calls it made, in order, and how it
    ended (for an [async] function, [Throw] is a rejected promise). *)
Record Async (A : Type) : Type := {
  calls : list Call;
  outcome : Completion A
}.
Arguments calls {A} _.
Arguments outcome {A} _.

#[global] Instance async_ret : MRet Async :=
  fun A a => {| calls := []; outcome := Normal a |}.
#[global] Instance async_bind : MBind Async :=
  fun A B k m =>
    match outcome m with
    | Normal a => {| calls := calls m ++ calls (k a); outcome := outcome (k a) |}
    | Throw e => {| calls := calls m; outcome := Throw e |}
    end.

Definition perform (c : Call) : Async unit :=
  {| calls := [c]; outcome := Normal tt |}.

(** A pure computation inside a handler. *)
Definition lift {A} (c : Completion A) : Async A :=
  {| calls := []; outcome := c |}.

(** [try { body } finally { final }] *)
Definition try_finally {A} (body : Async A) (final : Async unit) : Async A :=
  {| calls := calls body ++ calls final;
     outcome := match outcome final with
                | Normal _ => outcome body
                | Throw e => Throw e
                end |}.

Definition startNewThread : Async unit := perform CallStartNewThread.
Definition setValue (v : string) : Async unit := perform (CallSetValue v).
Definition submit (options : SubmitOptions) : Async unit :=
  perform (CallSubmit options).
(** [await new Promise(resolve => setTimeout(resolve, ms))] *)
Definition sleep (ms : nat) : Async unit := perform (CallSetTimeout ms).

(** ** The handlers of the component *)

Section Handlers.
Context `{P : Platform}.

(** A [CustomEvent]: its type and its [detail] (null when none is given). *)
Record CustomEvent : Type := {
  type : string;
  detail : Value
}.

(** [handleStartNewThread] (lines 85-87); it takes no argument. *)
Definition handleStartNewThread (_ : CustomEvent) : Async unit :=
  startNewThread.

(** The template of line 100. *)
Definition hiddenMessageOf (repoUrl : Value) : Completion string :=
  url ← ToString repoUrl;
  Normal ("<!-- HIDDEN:import-code-initialization -->I want to explore this GitHub repository: "
          ++ url).

(** [handleImportCodeMessage] (lines 97-109). *)
Definition handleImportCodeMessage (event : CustomEvent) : Async unit :=
  d ← lift (RequireObjectCoercible (detail event));
  let repoUrl := GetV d "repoUrl" in
  hiddenMessage ← lift (hiddenMessageOf repoUrl);
  sleep 200;;
  setValue hiddenMessage;;
  sleep 50;;
  submit {| streamResponse := Some true; resourceNames := ∅ |}.

(** [submitWithRepoContext] (lines 118-138), in a render where the hook
    gave the input value [value]. *)
Definition submitWithRepoContext (g : Global) (value : string)
    (options : SubmitOptions) : Async unit :=
  repoContext ← lift (getRepoContext g);
  if truthy repoContext && negb (String.eqb value "") then
    let originalValue := value in
    setValue (originalValue ++ stringOf repoContext);;
    sleep 50;;
    try_finally (submit options) (mret tt)
  else
    submit options.
End Handlers.

(** ** The window's event listeners and the component's effects *)

Section Effects.
Context `{P : Platform}.

(** A function object registered as a listener. Two closures made by two
    runs of the same effect are different objects: [identity] tells them
    apart, as [===] does. *)
Record Listener : Type := {
  identity : nat;
  call : CustomEvent -> Async unit
}.

(** The window as an event target: its listener list in registration
    order, and the identity the next function object gets. *)
Record EventTarget : Type := {
  listeners : list (string * Listener);
  next_identity : nat
}.

Definition same_listener (ty : string) (l : Listener)
    (entry : string * Listener) : bool :=
  String.eqb ty (fst entry) && Nat.eqb (identity l) (identity (snd entry)).

(** Evaluating a function expression: a new object. *)
Definition closure (f : CustomEvent -> Async unit) (t : EventTarget)
    : Listener * EventTarget :=
  ({| identity := next_identity t; call := f |},
   {| listeners := listeners t; next_identity := S (next_identity t) |}).

(** [window.addEventListener(ty, l)]: appended unless the same callback is
    already listed for the same type. *)
Definition addEventListener (ty : string) (l : Listener) (t : EventTarget)
    : EventTarget :=
  if existsb (same_listener ty l) (listeners t) then t
  else {| listeners := listeners t ++ [(ty, l)];
          next_identity := next_identity t |}.

Fixpoint remove_first (ty : string) (l : Listener)
    (entries : list (string * Listener)) : list (string * Listener) :=
  match entries with
  | [] => []
  | e :: rest =>
      if same_listener ty l e then rest else e :: remove_first ty l rest
  end.

(** [window.removeEventListener(ty, l)] *)
Definition removeEventListener (ty : string) (l : Listener) (t : EventTarget)
    : EventTarget :=
  {| listeners := remove_first ty l (listeners t);
     next_identity := next_identity t |}.

(** [window.dispatchEvent(event)]: one invocation per listener of the
    event's type, in registration order. *)
Definition dispatchEvent (event : CustomEvent) (t : EventTarget)
    : list (Async unit) :=
  map (fun entry => call (snd entry) event)
      (List.filter (fun entry => String.eqb (type event) (fst entry))
                   (listeners t)).

(** What [useEffect] is given: a body that returns its cleanup. *)
Definition Effect : Type := EventTarget -> EventTarget * (EventTarget -> EventTarget).

(** The effect of lines 84-93. *)
Definition startNewThreadEffect : Effect := fun t =>
  let '(handleStartNewThread, t) := closure handleStartNewThread t in
  let t := addEventListener "gitstory-start-new-thread" handleStartNewThread t in
  (t, fun t' =>
        removeEventListener "gitstory-start-new-thread" handleStartNewThread t').

(** The effect of lines 96-115. *)
Definition importCodeMessageEffect : Effect := fun t =>
  let '(handleImportCodeMessage, t) := closure handleImportCodeMessage t in
  let t := addEventListener "gitstory-import-code-message" handleImportCodeMessage t in
  (t, fun t' =>
        removeEventListener "gitstory-import-code-message" handleImportCodeMessage t').

(** The effects of [MessageThreadFull], in the order the component
    declares them. *)
Definition effects : list Effect :=
  [startNewThreadEffect; importCodeMessageEffect].

(** A mounted instance of the component: the cleanup each of its effects
    returned when it last ran. *)
Record Mounted : Type := {
  cleanupStartNewThread : EventTarget -> EventTarget;
  cleanupImportCodeMessage : EventTarget -> EventTarget
}.

(** First commit: every effect runs. *)
Definition mount (t : EventTarget) : Mounted * EventTarget :=
  let '(t, c1) := startNewThreadEffect t in
  let '(t, c2) := importCodeMessageEffect t in
  ({| cleanupStartNewThread := c1; cleanupImportCodeMessage := c2 |}, t).

(** A later commit. [d1] says that a dependency of the first effect
    ([startNewThread]) changed since the last commit, [d2] that one of the
    second ([setValue], [submit]) did. React first runs the cleanups of the
    effects whose dependencies changed, then runs those effects again. *)
Definition rerender (d1 d2 : bool) (m : Mounted) (t : EventTarget)
    : Mounted * EventTarget :=
  let t := if d1 then cleanupStartNewThread m t else t in
  let t := if d2 then cleanupImportCodeMessage m t else t in
  let '(t, c1) := if d1 then startNewThreadEffect t
                  else (t, cleanupStartNewThread m) in
  let '(t, c2) := if d2 then importCodeMessageEffect t
                  else (t, cleanupImportCodeMessage m) in
  ({| cleanupStartNewThread := c1; cleanupImportCodeMessage := c2 |}, t).

Fixpoint rerenders (ds : list (bool * bool)) (m : Mounted) (t : EventTarget)
    : Mounted * EventTarget :=
  match ds with
  | [] => (m, t)
  | (d1, d2) :: rest =>
      let '(m, t) := rerender d1 d2 m t in rerenders rest m t
  end.

(** The instance and the window after the component mounted in [t] and
    committed the re-renders [ds]. *)
Definition committed (ds : list (bool * bool)) (t : EventTarget)
    : Mounted * EventTarget :=
  let '(m, t) := mount t in rerenders ds m t.

(** Unmounting runs every cleanup. *)
Definition unmount (m : Mounted) (t : EventTarget) : EventTarget :=
  cleanupImportCodeMessage m (cleanupStartNewThread m t).

(** Every listed function object was made before now: the next identity
    is new. *)
Definition fresh (t : EventTarget) : Prop :=
  Forall (fun entry => identity (snd entry) < next_identity t) (listeners t).

(** The two entries a mounted instance has in the listener list, made by
    the effect runs that allocated the identities [i1] and [i2]. *)
Definition startNewThreadEntry (i1 : nat) : string * Listener :=
  ("gitstory-start-new-thread",
   {| identity := i1; call := handleStartNewThread |}).

Definition importCodeMessageEntry (i2 : nat) : string * Listener :=
  ("gitstory-import-code-message",
   {| identity := i2; call := handleImportCodeMessage |}).

(** The state of a mounted instance over the listeners [others] that were
    there before it mounted: the list holds [others] followed by the
    instance's two entries, and the instance's cleanups remove these. *)
Inductive Installed (others : list (string * Listener)) (m : Mounted)
    (t : EventTarget) : Prop :=
| installed (i1 i2 : nat)
    (Hfresh : fresh t)
    (Hothers :
       Forall (fun entry => identity (snd entry) < i1 /\
                            identity (snd entry) < i2) others)
    (Hlisteners :
       listeners t = (others ++ [startNewThreadEntry i1;
                                 importCodeMessageEntry i2])%list \/
       listeners t = (others ++ [importCodeMessageEntry i2;
                                 startNewThreadEntry i1])%list)
    (Hcleanup1 :
       cleanupStartNewThread m =
       (fun t' => removeEventListener (fst (startNewThreadEntry i1))
                                      (snd (startNewThreadEntry i1)) t'))
    (Hcleanup2 :
       cleanupImportCodeMessage m =
       (fun t' => removeEventListener (fst (importCodeMessageEntry i2))
                                      (snd (importCodeMessageEntry i2)) t')).
End Effects.

(** ** A platform to run the component on

    A small instance of [Platform], so that the definitions above can be
    evaluated on concrete inputs: numbers are the integers a double holds
    exactly, and [JSON_parse] reads the JSON texts built from objects,
    arrays, strings with the two-character escapes, such integers, [true],
    [false] and [null]. A text outside this fragment (a fraction, an
    exponent, a [\u] escape) is rejected here, so this instance stands for
    [JSON.parse] on the fragment only. Every theorem below holds for any
    platform. *)
Module Reference.
Local Open Scope char_scope.

Definition is_ws (c : ascii) : bool :=
  match c with
  | " " | "009" | "010" | "013" => true
  | _ => false
  end.

Fixpoint skip_ws (cs : list ascii) : list ascii :=
  match cs with
  | c :: rest => if is_ws c then skip_ws rest else cs
  | [] => []
  end.

Definition digit_of (c : ascii) : option Z :=
  let n := nat_of_ascii c in
  if (48 <=? n)%nat && (n <=? 57)%nat then Some (Z.of_nat (n - 48)) else None.

Fixpoint digits (acc : Z) (cs : list ascii) : Z * list ascii :=
  match cs with
  | c :: rest =>
      match digit_of c with
      | Some d => digits (10 * acc + d)%Z rest
      | None => (acc, cs)
      end
  | [] => (acc, [])
  end.

(** An integer literal: [0] or a non-zero digit followed by digits, not
    followed by a fraction or an exponent, within [-2^53, 2^53]. *)
Definition parse_nat (cs : list ascii) : option (Z * list ascii) :=
  match cs with
  | c :: rest =>
      match digit_of c with
      | Some d =>
          let '(n, rest') := if (d =? 0)%Z then (0%Z, rest) else digits d rest in
          match rest' with
          | "." :: _ | "e" :: _ | "E" :: _ => None
          | _ => if (n <=? 2 ^ 53)%Z then Some (n, rest') else None
          end
      | None => None
      end
  | [] => None
  end.

(** The characters of a string literal after its opening quote (code 34),
    up to its closing quote. *)
Fixpoint parse_chars (cs : list ascii) : option (string * list ascii) :=
  match cs with
  | "034" :: rest => Some (EmptyString, rest)
  | "\" :: e :: rest =>
      let unescaped :=
        match e with
        | "034" => Some "034"
        | "\" => Some "\"
        | "/" => Some "/"
        | "b" => Some "008"
        | "f" => Some "012"
        | "n" => Some "010"
        | "r" => Some "013"
        | "t" => Some "009"
        | _ => None
        end in
      match unescaped, parse_chars rest with
      | Some c, Some (s, rest') => Some (String c s, rest')
      | _, _ => None
      end
  | c :: rest =>
      if (nat_of_ascii c <? 32)%nat then None
      else match parse_chars rest with
           | Some (s, rest') => Some (String c s, rest')
           | None => None
           end
  | [] => None
  end.

(** Defining a property: a later duplicate replaces the earlier value. *)
Fixpoint set_prop {V} (k : string) (v : V) (props : list (string * V))
    : list (string * V) :=
  match props with
  | [] => [(k, v)]
  | (k', v') :: rest =>
      if String.eqb k k' then (k, v) :: rest else (k', v') :: set_prop k v rest
  end.

Fixpoint parse_value (fuel : nat) (cs : list ascii)
    : option (JsValue Z * list ascii) :=
  match fuel with
  | O => None
  | S fuel =>
      match skip_ws cs with
      | "n" :: "u" :: "l" :: "l" :: rest => Some (JNull, rest)
      | "t" :: "r" :: "u" :: "e" :: rest => Some (JBool true, rest)
      | "f" :: "a" :: "l" :: "s" :: "e" :: rest => Some (JBool false, rest)
      | "034" :: rest =>
          match parse_chars rest with
          | Some (s, rest') => Some (JString s, rest')
          | None => None
          end
      | "-" :: rest =>
          match parse_nat rest with
          | Some (n, rest') => Some (JNumber (- n)%Z, rest')
          | None => None
          end
      | "[" :: rest =>
          match skip_ws rest with
          | "]" :: rest' => Some (JArray [], rest')
          | _ => parse_elements fuel rest []
          end
      | "{" :: rest =>
          match skip_ws rest with
          | "}" :: rest' => Some (JObject [], rest')
          | _ => parse_members fuel rest []
          end
      | cs' =>
          match parse_nat cs' with
          | Some (n, rest') => Some (JNumber n, rest')
          | None => None
          end
      end
  end
with parse_elements (fuel : nat) (cs : list ascii) (acc : list (JsValue Z))
    : option (JsValue Z * list ascii) :=
  match fuel with
  | O => None
  | S fuel =>
      match parse_value fuel cs with
      | Some (v, rest) =>
          match skip_ws rest with
          | "," :: rest' => parse_elements fuel rest' (acc ++ [v])
          | "]" :: rest' => Some (JArray (acc ++ [v]), rest')
          | _ => None
          end
      | None => None
      end
  end
with parse_members (fuel : nat) (cs : list ascii)
    (acc : list (string * JsValue Z)) : option (JsValue Z * list ascii) :=
  match fuel with
  | O => None
  | S fuel =>
      match skip_ws cs with
      | "034" :: rest =>
          match parse_chars rest with
          | Some (k, rest') =>
              match skip_ws rest' with
              | ":" :: rest'' =>
                  match parse_value fuel rest'' with
                  | Some (v, rest3) =>
                      match skip_ws rest3 with
                      | "," :: rest4 => parse_members fuel rest4 (set_prop k v acc)
                      | "}" :: rest4 => Some (JObject (set_prop k v acc), rest4)
                      | _ => None
                      end
                  | None => None
                  end
              | _ => None
              end
          | None => None
          end
      | _ => None
      end
  end.

Definition parse (s : string) : Completion (JsValue Z) :=
  let cs := list_ascii_of_string s in
  match parse_value (2 * length cs + 2) cs with
  | Some (v, rest) =>
      match skip_ws rest with
      | [] => Normal v
      | _ => Throw SyntaxError
      end
  | None => Throw SyntaxError
  end.

Local Open Scope string_scope.

Definition show (n : Z) : string :=
  NilEmpty.string_of_int (Z.to_int n).

#[export] Instance platform : Platform := {|
  number := Z;
  Number_toString := show;
  Number_toBoolean := fun n => negb (n =? 0)%Z;
  JSON_parse := parse
|}.

(** A window whose storage holds [saved] under ["gitstory-repo"]. *)
Definition windowWith (saved : string) : Global :=
  Some {| localStorage := Normal {[ "gitstory-repo" := saved ]} |}.

(** A window whose storage holds nothing. *)
Definition emptyWindow : Global :=
  Some {| localStorage := Normal ∅ |}.

(** A string literal of JSON: [s] between double quotes (code 34). *)
Definition quoted (s : string) : string :=
  (String "034" s ++ String "034" EmptyString)%string.

(** The JSON text of [{owner, repo, branch}]. *)
Definition selection (owner repo branch : string) : string :=
  ("{" ++ quoted "owner" ++ ":" ++ quoted owner ++ "," ++
   quoted "repo" ++ ":" ++ quoted repo ++ "," ++
   quoted "branch" ++ ":" ++ quoted branch ++ "}")%string.
End Reference.

(** ** What the SDK holds as input value *)

(** [useTamboThreadInput] gives the component the pair [value], [setValue]:
    a call of [setValue] replaces the input value, and [submit] sends the
    value the input holds when it is called. [valueAtSubmit value cs] is that
    value for the first [submit] of the calls [cs], made from a render whose
    input value was [value]; [None] when [cs] has no [submit]. *)
Fixpoint valueAtSubmit (value : string) (cs : list Call) : option string :=
  match cs with
  | [] => None
  | CallSetValue v :: rest => valueAtSubmit v rest
  | CallSubmit _ :: _ => Some value
  | _ :: rest => valueAtSubmit value rest
  end.

Definition isSetValue (c : Call) : bool :=
  match c with CallSetValue _ => true | _ => false end.

Definition isSubmit (c : Call) : bool :=
  match c with CallSubmit _ => true | _ => false end.

(** No [setValue] comes after a [submit]. *)
Fixpoint submitNeverPrecedesSetValue (cs : list Call) : bool :=
  match cs with
  | [] => true
  | c :: rest =>
      (if isSubmit c then negb (existsb isSetValue rest) else true)
      && submitNeverPrecedesSetValue rest
  end.

(** Every [setValue] is followed by a timer and then by [submit]. *)
Fixpoint setValueThenDelayThenSubmit (cs : list Call) : bool :=
  match cs with
  | [] => true
  | CallSetValue _ :: rest =>
      match rest with
      | CallSetTimeout _ :: CallSubmit _ :: _ => setValueThenDelayThenSubmit rest
      | _ => false
      end
  | _ :: rest => setValueThenDelayThenSubmit rest
  end.

(** ** The top-level page *)

Section Page.
(** [components] and [tools] come from [@/lib/tambo], the hook
    [useMcpServers] from the MCP configuration modal, and [process.env]
    from the build: the page passes them on and looks into none. *)
Context {Components Tools McpServers : Type}.
Variable components : Components.
Variable tools : Tools.
Variable useMcpServers : unit -> McpServers.
Variable process_env : string -> option string.

(** What a JSX attribute of the page holds. *)
Inductive PropValue : Type :=
| Literal (s : string)
| EnvValue (v : option string)
| ComponentsValue (c : Components)
| ToolsValue (t : Tools)
| McpServersValue (m : McpServers).

Inductive Element : Type :=
| Node (tag : string) (props : list (string * PropValue)) (children : list Element)
| TextNode (text : string).

Definition tagOf (e : Element) : option string :=
  match e with
  | Node tag _ _ => Some tag
  | TextNode _ => None
  end.

Definition propsOf (e : Element) : list (string * PropValue) :=
  match e with
  | Node _ props _ => props
  | TextNode _ => []
  end.

Fixpoint prop (name : string) (props : list (string * PropValue))
    : option PropValue :=
  match props with
  | [] => None
  | (n, v) :: rest => if String.eqb name n then Some v else prop name rest
  end.

(** The elements strictly below [e], in document order. *)
Fixpoint descendants (e : Element) : list Element :=
  match e with
  | Node _ _ children => flat_map (fun c => c :: descendants c) children
  | TextNode _ => []
  end.

(** [Home] (lines 9-34 of the page). *)
Definition Home : Element :=
  let mcpServers := useMcpServers tt in
  Node "TamboProvider"
    [("apiKey", EnvValue (process_env "NEXT_PUBLIC_TAMBO_API_KEY"));
     ("components", ComponentsValue components);
     ("tools", ToolsValue tools);
     ("tamboUrl", EnvValue (process_env "NEXT_PUBLIC_TAMBO_URL"));
     ("mcpServers", McpServersValue mcpServers)]
    [Node "div" [("className", Literal "h-screen flex flex-col")]
       [Node "div"
          [("className",
            Literal "flex items-center justify-between px-4 py-2 border-b border-border bg-card")]
          [Node "div" [("className", Literal "flex items-center gap-2")]
             [Node "GitBranch" [("className", Literal "w-5 h-5 text-primary")] [];
              Node "span" [("className", Literal "font-semibold")]
                [TextNode "GitStory"]]];
        Node "div" [("className", Literal "flex-1 overflow-hidden")]
          [Node "MessageThreadFull"
             [("className", Literal "max-w-4xl mx-auto h-full")] []]]].
End Page.

(** ** What the specification says of [getRepoContext] *)

(** A repo selection [{owner, repo, branch}]. *)
Record Selection : Type := {
  sel_owner : string;
  sel_repo : string;
  sel_branch : string
}.

(** The context string as the specification writes it: the [/tree/{branch}]
    suffix is there exactly when the branch is not empty. *)
Definition contextOfSelection (s : Selection) : string :=
  LF ++ LF ++ "[Repository Context: https://github.com/"
  ++ sel_owner s ++ "/" ++ sel_repo s
  ++ (if String.eqb (sel_branch s) "" then "" else "/tree/" ++ sel_branch s)
  ++ "]".

Section Persisted.
Context `{P : Platform}.

(** The properties of a parsed object are those of the selection [s]; a
    selection without branch may leave the property out. *)
Definition holds (props : list (string * Value)) (s : Selection) : Prop :=
  assoc "owner" props = Some (JString (sel_owner s)) /\
  assoc "repo" props = Some (JString (sel_repo s)) /\
  (assoc "branch" props = Some (JString (sel_branch s)) \/
   (assoc "branch" props = None /\ sel_branch s = "")).

(** [persisted store (Some s)]: the JSON text of [s] is saved under
    ["gitstory-repo"]; [persisted store None]: nothing is saved there. *)
Definition persisted (store : gmap string string) (sel : option Selection)
    : Prop :=
  match sel with
  | None => store !! "gitstory-repo" = None
  | Some s =>
      exists saved props,
        store !! "gitstory-repo" = Some saved /\
        saved <> "" /\
        JSON_parse saved = Normal (JObject props) /\
        holds props s
  end.
End Persisted.

(** What one call of [getRepoContext] reads of the world: whether there is
    a window, and what [getItem] gives for the one key. *)
Definition observed (g : Global) : option (Completion (option string)) :=
  (fun w => getItem w "gitstory-repo") <$> g.

(** ** What [MessageThreadFull] renders *)

(** An entry of [defaultSuggestions] (lines 149-168). *)
Module Suggestion.
Record t : Type := {
  id : string;
  title : string;
  detailedSuggestion : string;
  messageId : string
}.
End Suggestion.

Definition defaultSuggestions : list Suggestion.t :=
  [ {| Suggestion.id := "suggestion-1";
       Suggestion.title := "Get started";
       Suggestion.detailedSuggestion := "What can you help me with?";
       Suggestion.messageId := "welcome-query" |};
    {| Suggestion.id := "suggestion-2";
       Suggestion.title := "Learn more";
       Suggestion.detailedSuggestion := "Tell me about your capabilities.";
       Suggestion.messageId := "capabilities-query" |};
    {| Suggestion.id := "suggestion-3";
       Suggestion.title := "Examples";
       Suggestion.detailedSuggestion := "Show me some example queries I can try.";
       Suggestion.messageId := "examples-query" |} ].

(** The functions the component body defines. *)
Inductive Closure : Type :=
| ClosureGetRepoContext
| ClosureHandleStartNewThread
| ClosureHandleImportCodeMessage
| ClosureSubmitWithRepoContext.

(** The functions of the component that the body of [c] calls: line 121 is
    the one call of one of them. *)
Definition callees (c : Closure) : list Closure :=
  match c with
  | ClosureSubmitWithRepoContext => [ClosureGetRepoContext]
  | ClosureGetRepoContext
  | ClosureHandleStartNewThread
  | ClosureHandleImportCodeMessage => []
  end.

(** The functions the two effects pass to [window.addEventListener]. *)
Definition closuresRegistered : list Closure :=
  [ClosureHandleStartNewThread; ClosureHandleImportCodeMessage].

Section Render.
(** The merged ref, the message variant and the values of the caller's
    remaining props are passed on and not looked into. *)
Context {Ref Variant CallerValue : Type}.

(** What a JSX attribute of the component can hold. *)
Inductive Attr : Type :=
| AttrLiteral (s : string)
| AttrTrue
| AttrClassName (className : option string)
| AttrRef (r : Ref)
| AttrVariant (v : option Variant)
| AttrPosition (historyPosition : string)
| AttrSuggestions (l : list Suggestion.t)
| AttrCaller (v : CallerValue)
| AttrClosure (c : Closure).

Inductive View : Type :=
| ViewNode (tag : string) (attrs : list (string * Attr)) (children : list View).

Definition viewTag (v : View) : string :=
  match v with ViewNode tag _ _ => tag end.

Definition viewAttrs (v : View) : list (string * Attr) :=
  match v with ViewNode _ attrs _ => attrs end.

Definition viewChildren (v : View) : list View :=
  match v with ViewNode _ _ children => children end.

(** [{cond && element}] among the children of an element. *)
Definition when (cond : bool) (element : View) : list View :=
  if cond then [element] else [].

(** A caller's [{...props}]. *)
Definition spread (props : list (string * CallerValue)) : list (string * Attr) :=
  map (fun kv => (fst kv, AttrCaller (snd kv))) props.

(** The props that still count when they are spread on an element written
    with children between its tags: those children are the element's
    children, whatever a [children] prop of the caller holds. *)
Definition withoutChildren (props : list (string * CallerValue))
    : list (string * CallerValue) :=
  List.filter (fun kv => negb (String.eqb (fst kv) "children")) props.

(** [threadHistorySidebar] (lines 140-147). *)
Definition threadHistorySidebar (historyPosition : string) : View :=
  ViewNode "ThreadHistory" [("position", AttrPosition historyPosition)]
    [ViewNode "ThreadHistoryHeader" [] [];
     ViewNode "ThreadHistoryNewButton" [] [];
     ViewNode "ThreadHistorySearch" [] [];
     ViewNode "ThreadHistoryList" [] []].

(** The [MessageInput] element of lines 198-209. *)
Definition messageInput : View :=
  ViewNode "MessageInput" []
    [ViewNode "MessageInputTextarea"
       [("placeholder", AttrLiteral "Type your message or paste images...")] [];
     ViewNode "MessageInputToolbar" []
       [ViewNode "MessageInputFileButton" [] [];
        ViewNode "MessageInputMcpPromptButton" [] [];
        ViewNode "MessageInputMcpResourceButton" [] [];
        ViewNode "MessageInputImportCodeButton" [] [];
        ViewNode "MessageInputMcpConfigButton" [] [];
        ViewNode "MessageInputSubmitButton" [] []];
     ViewNode "MessageInputError" [] []].

(** The [ThreadContainer] element of lines 175-216. Its attributes are in
    source order (a later attribute of the same name replaces an earlier
    one); [props] are the caller's props left after [className] and
    [variant] were taken out on line 61. *)
Definition threadContainer (className : option string) (variant : option Variant)
    (props : list (string * CallerValue)) (mergedRef : Ref) : View :=
  ViewNode "ThreadContainer"
    ([("ref", AttrRef mergedRef);
      ("disableSidebarSpacing", AttrTrue);
      ("className", AttrClassName className)]
     ++ spread (withoutChildren props))%list
    [ViewNode "ScrollableMessageContainer" [("className", AttrLiteral "p-4")]
       [ViewNode "ThreadContent" [("variant", AttrVariant variant)]
          [ViewNode "ThreadContentMessages" [] []]];
     ViewNode "MessageSuggestions" []
       [ViewNode "MessageSuggestionsStatus" [] []];
     ViewNode "div" [("className", AttrLiteral "px-4 pb-4")]
       [ViewNode "div" [("className", AttrLiteral "mb-2")]
          [ViewNode "RepoContextBadge" [] []];
        messageInput];
     ViewNode "MessageSuggestions"
       [("initialSuggestions", AttrSuggestions defaultSuggestions)]
       [ViewNode "MessageSuggestionsList" [] []]].

(** What the component returns (lines 170-221), in a render where the
    container context gave [historyPosition] and the refs merged into
    [mergedRef]. *)
Definition render (className : option string) (variant : option Variant)
    (props : list (string * CallerValue)) (mergedRef : Ref)
    (historyPosition : string) : View :=
  ViewNode "div" [("className", AttrLiteral "flex h-full w-full")]
    (when (String.eqb historyPosition "left")
          (threadHistorySidebar historyPosition)
     ++ [threadContainer className variant props mergedRef]
     ++ when (String.eqb historyPosition "right")
             (threadHistorySidebar historyPosition))%list.

(** The element and everything below it, in document order. *)
Fixpoint elements (v : View) : list View :=
  match v with
  | ViewNode _ _ children => v :: flat_map elements children
  end.

Definition closureOf (a : Attr) : list Closure :=
  match a with
  | AttrClosure c => [c]
  | _ => []
  end.

(** The functions of the component that a tree hands to its elements. *)
Definition closuresPassed (v : View) : list Closure :=
  flat_map (fun e => flat_map (fun kv => closureOf (snd kv)) (viewAttrs e))
           (elements v).

(** How many elements of a tree have the tag [tag]. *)
Definition countTag (tag : string) (v : View) : nat :=
  length (List.filter (fun e => String.eqb (viewTag e) tag) (elements v)).

(** The functions of the component that code outside it gets hold of: those
    the tree hands to an element, those the effects hand to the window
    (lines 89 and 111), and those the bodies of these call. *)
Definition closuresReachable (v : View) : list Closure :=
  let given := (closuresPassed v ++ closuresRegistered)%list in
  (given ++ flat_map callees given)%list.
End Render.

(** ** What a dispatch reaches of the component *)

(** The invocations a mounted instance contributes to a dispatch of
    [event]: the handler registered for the event's type, if any. *)
Definition ownInvocations `{P : Platform} (event : CustomEvent)
    : list (Async unit) :=
  ((if String.eqb (type event) "gitstory-start-new-thread"
    then [handleStartNewThread event] else [])
   ++ (if String.eqb (type event) "gitstory-import-code-message"
       then [handleImportCodeMessage event] else []))%list.

(** The tag that marks a message as hidden (line 100). *)
Definition hiddenTag : string := "<!-- HIDDEN:import-code-initialization -->".

(** * Properties *)

(** ** The model at work *)

Example context_with_branch :
  getRepoContext (P := Reference.platform)
    (Reference.windowWith (Reference.selection "octocat" "hello-world" "main"))
  = Normal (Some (LF ++ LF ++
      "[Repository Context: https://github.com/octocat/hello-world/tree/main]")).
Proof. reflexivity. Qed.

Example context_without_branch :
  getRepoContext (P := Reference.platform)
    (Reference.windowWith (Reference.selection "octocat" "hello-world" ""))
  = Normal (Some (LF ++ LF ++
      "[Repository Context: https://github.com/octocat/hello-world]")).
Proof. reflexivity. Qed.

(** On the server there is no window. *)
Example context_on_server :
  getRepoContext (P := Reference.platform) None = Normal None.
Proof. reflexivity. Qed.

(** Storage access denied: the SecurityError is caught. *)
Example context_storage_denied :
  getRepoContext (P := Reference.platform)
    (Some {| localStorage := Throw SecurityError |})
  = Normal None.
Proof. reflexivity. Qed.

(** The text [null] parses, and destructuring null throws a TypeError, which
    is caught. *)
Example context_of_null :
  getRepoContext (P := Reference.platform) (Reference.windowWith "null")
  = Normal None.
Proof. reflexivity. Qed.

(** A saved text that parses to something without the three properties
    still gives a context: the properties read as undefined. *)
Example context_of_number :
  getRepoContext (P := Reference.platform) (Reference.windowWith "17")
  = Normal (Some (LF ++ LF ++
      "[Repository Context: https://github.com/undefined/undefined]")).
Proof. reflexivity. Qed.

(** An owner that is an object with a [toString] property of its own: the
    template of line 74 throws a TypeError, which is caught. *)
Example context_of_unprintable_owner :
  getRepoContext (P := Reference.platform)
    (Reference.windowWith
       ("{" ++ Reference.quoted "owner" ++ ":{" ++ Reference.quoted "toString"
        ++ ":1}," ++ Reference.quoted "repo" ++ ":" ++ Reference.quoted "b" ++ "}"))
  = Normal None.
Proof. reflexivity. Qed.

(** Before the component mounts nobody listens. *)
Example dispatch_before_mount :
  dispatchEvent (P := Reference.platform)
    {| type := "gitstory-start-new-thread"; detail := JNull |}
    {| listeners := []; next_identity := 0 |}
  = [].
Proof. reflexivity. Qed.

(** An import event without detail: the handler's promise is rejected
    before any call. *)
Example import_without_detail :
  handleImportCodeMessage (P := Reference.platform)
    {| type := "gitstory-import-code-message"; detail := JNull |}
  = {| calls := []; outcome := Throw TypeError |}.
Proof. reflexivity. Qed.

(** A [repoUrl] that is an object with a [toString] property of its own:
    the template of line 100 throws, and the handler's promise is rejected
    before any call. *)
Example import_with_unprintable_repoUrl :
  handleImportCodeMessage (P := Reference.platform)
    {| type := "gitstory-import-code-message";
       detail := JObject [("repoUrl", JObject [("toString", JBool true)])] |}
  = {| calls := []; outcome := Throw TypeError |}.
Proof. reflexivity. Qed.

(** ** [getRepoContext] *)

Section GetRepoContextFacts.
Context `{P : Platform}.

Lemma append_assoc (a b c : string) : (a ++ b) ++ c = a ++ (b ++ c).
Proof.
  induction a as [|x a IH]; [reflexivity|].
  change (String x ((a ++ b) ++ c) = String x (a ++ (b ++ c))).
  f_equal. exact IH.
Qed.

Lemma append_nil_r (s : string) : s ++ "" = s.
Proof.
  induction s as [|x s IH]; [reflexivity|].
  change (String x (s ++ "") = String x s). now rewrite IH.
Qed.

(** Induction on a value through the items of its arrays. *)
Lemma Value_items_ind (Q : Value -> Prop) :
  Q JUndefined -> Q JNull -> (forall b, Q (JBool b)) ->
  (forall n, Q (JNumber n)) -> (forall s, Q (JString s)) ->
  (forall items, List.Forall Q items -> Q (JArray items)) ->
  (forall props, Q (JObject props)) ->
  forall v, Q v.
Proof.
  intros Hu Hn Hb Hnum Hs Ha Ho.
  refine (fix F (v : Value) : Q v :=
            match v with
            | JUndefined => Hu
            | JNull => Hn
            | JBool b => Hb b
            | JNumber n => Hnum n
            | JString s => Hs s
            | JArray items =>
                Ha items
                   ((fix G (l : list Value) : List.Forall Q l :=
                       match l with
                       | [] => @List.Forall_nil _ Q
                       | x :: rest => @List.Forall_cons _ Q x rest (F x) (G rest)
                       end) items)
            | JObject props => Ho props
            end).
Qed.

(** The only thing [ToString] throws is a TypeError. *)
Lemma ToString_TypeError (v : Value) (e : Error) :
  ToString v = Throw e -> e = TypeError.
Proof.
  revert e. induction v as [ | | [|] | n | s | items IH | props]
    using Value_items_ind; intros e; cbn [ToString]; try discriminate.
  - cbn [mbind completion_bind cbind].
    induction IH as [|x items Hx _ IHitems]; [discriminate|].
    cbn [renderItems mbind completion_bind cbind].
    destruct (match x with
              | JUndefined | JNull => Normal ""
              | _ => ToString x
              end) as [sx|ex] eqn:Ex.
    + destruct (renderItems _ items) as [ss|es] eqn:Hrest.
      * discriminate.
      * intros [= <-]. apply IHitems. reflexivity.
    + intros [= <-]. destruct x; try discriminate Ex; apply (Hx _ Ex).
  - destruct (assoc "toString" props); [intros [= <-]; reflexivity | discriminate].
Qed.

(** An object renders unless it has a [toString] property of its own. *)
Lemma ToString_JObject (props : list (string * Value)) :
  ToString (JObject props) =
  match assoc "toString" props with
  | Some _ => Throw TypeError
  | None => Normal "[object Object]"
  end.
Proof. reflexivity. Qed.

Lemma truthy_Some (s : string) : s <> "" -> truthy (Some s) = true.
Proof.
  intros Hs. simpl. destruct (String.eqb_spec s ""); [contradiction | reflexivity].
Qed.

Lemma ToBoolean_JString (s : string) :
  ToBoolean (JString s) = negb (String.eqb s "").
Proof. reflexivity. Qed.

(** Inside a window the result is what the [try] block returned, and null
    when the block threw or ran off its end. *)
Lemma getRepoContext_window (w : Window) :
  getRepoContext (Some w) =
  Normal (match getRepoContext_try w with
          | Normal r => r
          | Throw _ => None
          end).
Proof.
  unfold getRepoContext.
  destruct (getRepoContext_try w) as [[s|]|e]; reflexivity.
Qed.

Lemma getRepoContext_normal (g : Global) :
  exists r : option string, getRepoContext g = Normal r.
Proof.
  destruct g as [w|]; [|exists None; reflexivity].
  rewrite getRepoContext_window. eexists. reflexivity.
Qed.

(** The [try] block only looks at the one key. *)
Lemma getRepoContext_try_getItem (w1 w2 : Window) :
  getItem w1 "gitstory-repo" = getItem w2 "gitstory-repo" ->
  getRepoContext_try w1 = getRepoContext_try w2.
Proof. intros H. unfold getRepoContext_try. rewrite H. reflexivity. Qed.

Lemma getRepoContext_try_store (store : gmap string string) :
  getRepoContext_try {| localStorage := Normal store |} =
  let saved := store !! "gitstory-repo" in
  if truthy saved then
    parsed ← JSON_parse (stringOf saved);
    obj ← RequireObjectCoercible parsed;
    url ← repoUrlOf (GetV obj "owner") (GetV obj "repo") (GetV obj "branch");
    Normal (Some (repoContextOf url))
  else Normal None.
Proof. reflexivity. Qed.

(** A returned context is never the empty string. *)
Lemma getRepoContext_truthy (g : Global) (ctx : string) :
  getRepoContext g = Normal (Some ctx) -> truthy (Some ctx) = true.
Proof.
  destruct g as [w|]; [|discriminate].
  rewrite getRepoContext_window. unfold getRepoContext_try.
  destruct (getItem w "gitstory-repo") as [saved|e]; simpl; [|discriminate].
  destruct (truthy saved); [|discriminate].
  destruct (JSON_parse (stringOf saved)) as [parsed|e]; simpl; [|discriminate].
  destruct (RequireObjectCoercible parsed) as [obj|e]; simpl; [|discriminate].
  destruct (repoUrlOf _ _ _) as [url|e]; simpl; [|discriminate].
  intros [= <-]. reflexivity.
Qed.

Lemma repoUrlOf_selection (props : list (string * Value)) (s : Selection) :
  holds props s ->
  exists url,
    repoUrlOf (GetV (JObject props) "owner") (GetV (JObject props) "repo")
              (GetV (JObject props) "branch") = Normal url /\
    repoContextOf url = contextOfSelection s.
Proof.
  intros (Ho & Hr & Hb). unfold repoUrlOf, GetV.
  rewrite Ho, Hr. simpl default.
  assert (Hctx : forall tree,
             tree = (if String.eqb (sel_branch s) "" then ""
                     else "/tree/" ++ sel_branch s) ->
             repoContextOf ("https://github.com/" ++ sel_owner s ++ "/"
                            ++ sel_repo s ++ tree)
             = contextOfSelection s).
  { intros tree ->. unfold repoContextOf, contextOfSelection.
    rewrite !append_assoc. reflexivity. }
  destruct Hb as [Hb | [Hb He]]; rewrite Hb; simpl default.
  - cbn [ToString ToBoolean mbind completion_bind cbind].
    destruct (String.eqb (sel_branch s) "") eqn:E;
      cbn [negb mbind completion_bind cbind];
      eexists; (split; [reflexivity|]); apply Hctx; rewrite ?E; reflexivity.
  - cbn [ToString ToBoolean mbind completion_bind cbind].
    eexists. split; [reflexivity|]. apply Hctx. now rewrite He.
Qed.
End GetRepoContextFacts.

(** C2. With a window whose [localStorage] holds the JSON text of a
    selection [{owner, repo, branch}] under ["gitstory-repo"],
    [getRepoContext] returns the two line feeds followed by
    [[Repository Context: https://github.com/{owner}/{repo}/tree/{branch}]],
    the [/tree/{branch}] part being there exactly when the branch is not
    empty; with nothing saved it returns null. *)
Theorem getRepoContext_persisted `{P : Platform}
    (store : gmap string string) (sel : option Selection) :
  persisted store sel ->
  getRepoContext (Some {| localStorage := Normal store |})
  = Normal (contextOfSelection <$> sel).
Proof.
  intros Hp. rewrite getRepoContext_window, getRepoContext_try_store.
  destruct sel as [s|]; simpl in Hp.
  - destruct Hp as (saved & props & Hget & Hne & Hparse & Hholds).
    rewrite Hget. cbv zeta. rewrite (truthy_Some _ Hne).
    simpl stringOf. rewrite Hparse. simpl.
    change (default JUndefined (assoc "owner" props)) with (GetV (JObject props) "owner").
    change (default JUndefined (assoc "repo" props)) with (GetV (JObject props) "repo").
    change (default JUndefined (assoc "branch" props)) with (GetV (JObject props) "branch").
    destruct (repoUrlOf_selection _ _ Hholds) as (url & -> & <-). reflexivity.
  - rewrite Hp. reflexivity.
Qed.

Lemma getRepoContext_persisted_witness :
  let store : gmap string string :=
    {[ "gitstory-repo" := Reference.selection "Random-Pikachu" "GitStory" "main" ]} in
  let sel := {| sel_owner := "Random-Pikachu"; sel_repo := "GitStory";
                sel_branch := "main" |} in
  persisted (P := Reference.platform) store (Some sel) /\
  getRepoContext (P := Reference.platform)
    (Some {| localStorage := Normal store |})
  = Normal (Some (LF ++ LF ++
      "[Repository Context: https://github.com/Random-Pikachu/GitStory/tree/main]")).
Proof.
  intros store sel.
  assert (Hp : persisted (P := Reference.platform) store (Some sel)).
  { exists (Reference.selection "Random-Pikachu" "GitStory" "main").
    exists [("owner", JString "Random-Pikachu"); ("repo", JString "GitStory");
            ("branch", JString "main")].
    split; [reflexivity|]. split; [discriminate|]. split; [reflexivity|].
    split; [reflexivity|]. split; [reflexivity|]. left. reflexivity. }
  split; [exact Hp|].
  exact (getRepoContext_persisted (P := Reference.platform) store (Some sel) Hp).
Defined.

(** C8. [getRepoContext] never throws: whatever the window and whatever
    [localStorage] holds under ["gitstory-repo"], it returns a string or
    null. When [JSON.parse] throws on the saved text the exception is caught
    and the result is null, and so it is when nothing or the empty string is
    saved. *)
Theorem getRepoContext_never_throws `{P : Platform} (g : Global) :
  (exists r : option string, getRepoContext g = Normal r) /\
  (forall w saved e,
      g = Some w ->
      getItem w "gitstory-repo" = Normal (Some saved) ->
      JSON_parse saved = Throw e ->
      getRepoContext g = Normal None) /\
  (forall w,
      g = Some w ->
      getItem w "gitstory-repo" = Normal None \/
      getItem w "gitstory-repo" = Normal (Some "") ->
      getRepoContext g = Normal None).
Proof.
  split; [|split].
  - apply getRepoContext_normal.
  - intros w saved e -> Hget Hparse.
    rewrite getRepoContext_window. unfold getRepoContext_try.
    rewrite Hget. simpl.
    destruct (String.eqb saved ""); simpl; [reflexivity|].
    rewrite Hparse. reflexivity.
  - intros w -> [Hget | Hget]; rewrite getRepoContext_window;
      unfold getRepoContext_try; rewrite Hget; reflexivity.
Qed.

Lemma getRepoContext_never_throws_witness :
  JSON_parse (Platform := Reference.platform) "{oops" = Throw SyntaxError /\
  getRepoContext (P := Reference.platform) (Reference.windowWith "{oops")
  = Normal None.
Proof.
  split; [reflexivity|].
  refine (proj1 (proj2 (getRepoContext_never_throws (P := Reference.platform)
                          (Reference.windowWith "{oops")))
                _ "{oops" SyntaxError eq_refl _ _); reflexivity.
Defined.

(** C10. [getRepoContext] is a function of what it observes: two calls that
    see the same window availability and read the same thing under
    ["gitstory-repo"] return the same result, whatever else the two worlds
    hold. *)
Theorem getRepoContext_deterministic `{P : Platform} (g1 g2 : Global) :
  observed g1 = observed g2 ->
  getRepoContext g1 = getRepoContext g2.
Proof.
  intros H. unfold observed in H.
  destruct g1 as [w1|], g2 as [w2|]; simpl in H; try discriminate.
  - injection H as H. rewrite !getRepoContext_window.
    rewrite (getRepoContext_try_getItem w1 w2 H). reflexivity.
  - reflexivity.
Qed.

Lemma getRepoContext_deterministic_witness :
  let saved := Reference.selection "octocat" "hello-world" "" in
  let g1 : Global := Some {| localStorage := Normal {[ "gitstory-repo" := saved ]} |} in
  let g2 : Global :=
    Some {| localStorage :=
              Normal (<[ "theme" := "dark" ]> {[ "gitstory-repo" := saved ]}) |} in
  g1 <> g2 /\ observed g1 = observed g2 /\
  getRepoContext (P := Reference.platform) g1
  = getRepoContext (P := Reference.platform) g2.
Proof.
  intros saved g1 g2.
  split; [|split].
  - intros H.
    apply (f_equal (fun g : Global =>
                      match g with
                      | Some {| localStorage := Normal s |} => s !! "theme"
                      | _ => None
                      end)) in H.
    vm_compute in H. discriminate H.
  - reflexivity.
  - exact (getRepoContext_deterministic (P := Reference.platform) g1 g2 eq_refl).
Defined.

(** ** [submitWithRepoContext] *)

Section SubmitFacts.
Context `{P : Platform}.

Lemma eqb_empty_false (s : string) : s <> "" -> String.eqb s "" = false.
Proof. intros Hs. destruct (String.eqb_spec s ""); [contradiction | reflexivity]. Qed.

(** The branch of lines 123-134. *)
Lemma submitWithRepoContext_then (g : Global) (value ctx : string)
    (options : SubmitOptions) :
  getRepoContext g = Normal (Some ctx) ->
  value <> "" ->
  submitWithRepoContext g value options =
  {| calls := [CallSetValue (value ++ ctx); CallSetTimeout 50; CallSubmit options];
     outcome := Normal tt |}.
Proof.
  intros Hctx Hv. unfold submitWithRepoContext.
  pose proof (getRepoContext_truthy g ctx Hctx) as Ht.
  rewrite Hctx. unfold lift, mbind, async_bind. cbn [outcome calls].
  rewrite Ht, (eqb_empty_false _ Hv). reflexivity.
Qed.

(** The branch of line 136. *)
Lemma submitWithRepoContext_else (g : Global) (value : string)
    (options : SubmitOptions) :
  getRepoContext g = Normal None \/ value = "" ->
  submitWithRepoContext g value options =
  {| calls := [CallSubmit options]; outcome := Normal tt |}.
Proof.
  intros H. unfold submitWithRepoContext.
  destruct (getRepoContext_normal g) as [r Hr]. rewrite Hr.
  unfold lift, mbind, async_bind. cbn [outcome calls].
  destruct H as [H | ->].
  - rewrite Hr in H. injection H as ->. reflexivity.
  - rewrite andb_false_r. reflexivity.
Qed.

(** One of the two branches is taken, whatever the arguments. *)
Lemma submitWithRepoContext_cases (g : Global) (value : string)
    (options : SubmitOptions) :
  ((getRepoContext g = Normal None \/ value = "") /\
   calls (submitWithRepoContext g value options) = [CallSubmit options]) \/
  exists ctx,
    getRepoContext g = Normal (Some ctx) /\ value <> "" /\
    calls (submitWithRepoContext g value options)
    = [CallSetValue (value ++ ctx); CallSetTimeout 50; CallSubmit options].
Proof.
  destruct (getRepoContext_normal g) as [[ctx|] Hr].
  - destruct (String.eqb_spec value "") as [Hv|Hv].
    + left. split; [now right|].
      rewrite submitWithRepoContext_else; [reflexivity | now right].
    + right. exists ctx. split; [exact Hr|]. split; [exact Hv|].
      rewrite (submitWithRepoContext_then g value ctx); auto.
  - left. split; [now left|].
    rewrite submitWithRepoContext_else; [reflexivity | now left].
Qed.

(** [handleImportCodeMessage] either rejects at once, with a TypeError and
    before any call (a null or undefined detail, or a [repoUrl] that does
    not render as a string), or makes its four calls. *)
Lemma handleImportCodeMessage_cases (event : CustomEvent) :
  ((detail event = JNull \/ detail event = JUndefined \/
    ToString (GetV (detail event) "repoUrl") = Throw TypeError) /\
   handleImportCodeMessage event
   = {| calls := []; outcome := Throw TypeError |}) \/
  (exists url,
      detail event <> JNull /\ detail event <> JUndefined /\
      ToString (GetV (detail event) "repoUrl") = Normal url /\
      handleImportCodeMessage event =
      {| calls := [CallSetTimeout 200;
                   CallSetValue
                     ("<!-- HIDDEN:import-code-initialization -->I want to explore this GitHub repository: "
                      ++ url);
                   CallSetTimeout 50;
                   CallSubmit {| streamResponse := Some true;
                                 resourceNames := ∅ |}];
         outcome := Normal tt |}).
Proof.
  unfold handleImportCodeMessage, hiddenMessageOf.
  destruct (detail event) eqn:Hd;
    try (left; split; [auto | reflexivity]).
  all: cbn [RequireObjectCoercible lift mbind async_bind outcome calls].
  all: match goal with
       | |- context [ToString ?v] =>
           destruct (ToString v) as [url|e] eqn:Hurl
       end.
  all: try (right; exists url; repeat split; try discriminate; reflexivity).
  all: pose proof (ToString_TypeError _ _ Hurl) as ->.
  all: left; split; [auto | reflexivity].
Qed.
End SubmitFacts.

(** X17. What the wrapper does when it is called: with a non-empty input
    value while [getRepoContext] returns a context string, it sets the
    input value to the typed text followed by that string, waits 50 ms and
    then calls the SDK's [submit]: the context is appended before the
    submit. *)
Theorem submitWithRepoContext_appends `{P : Platform}
    (g : Global) (value ctx : string) (options : SubmitOptions) :
  getRepoContext g = Normal (Some ctx) ->
  value <> "" ->
  calls (submitWithRepoContext g value options)
  = [CallSetValue (value ++ ctx); CallSetTimeout 50; CallSubmit options] /\
  valueAtSubmit value (calls (submitWithRepoContext g value options))
  = Some (value ++ ctx).
Proof.
  intros Hctx Hv. rewrite (submitWithRepoContext_then g value ctx options Hctx Hv).
  split; reflexivity.
Qed.

Lemma submitWithRepoContext_appends_witness :
  let g := Reference.windowWith (Reference.selection "Random-Pikachu" "GitStory" "main") in
  let ctx := LF ++ LF ++
    "[Repository Context: https://github.com/Random-Pikachu/GitStory/tree/main]" in
  let options := {| streamResponse := Some true; resourceNames := ∅ |} in
  getRepoContext (P := Reference.platform) g = Normal (Some ctx) /\
  calls (submitWithRepoContext (P := Reference.platform) g "What changed last week?" options)
  = [CallSetValue ("What changed last week?" ++ ctx); CallSetTimeout 50;
     CallSubmit options].
Proof.
  intros g ctx options. split; [reflexivity|].
  refine (proj1 (submitWithRepoContext_appends (P := Reference.platform)
                   g "What changed last week?" ctx options eq_refl _)).
  discriminate.
Defined.

(** Even called, the wrapper does not append to every message: it is not
    so that every submit made while a selection is persisted is preceded by
    a [setValue] of the text with the context appended, nor that the input
    holds that text when the SDK's submit runs. A message without text (only
    pasted images) goes out as it is: with the empty input value the wrapper
    calls [submit] and nothing else. *)
Lemma context_not_appended_to_empty_text :
  ~ (forall (P : Platform) (g : Global) (value ctx : string)
            (options : SubmitOptions),
        getRepoContext g = Normal (Some ctx) ->
        In (CallSetValue (value ++ ctx))
           (calls (submitWithRepoContext g value options)) \/
        valueAtSubmit value (calls (submitWithRepoContext g value options))
        = Some (value ++ ctx)).
Proof.
  intros H.
  destruct (H Reference.platform
              (Reference.windowWith
                 (Reference.selection "Random-Pikachu" "GitStory" "main"))
              ""
              (LF ++ LF ++
               "[Repository Context: https://github.com/Random-Pikachu/GitStory/tree/main]")
              {| streamResponse := Some true; resourceNames := ∅ |}
              eq_refl) as [Hin | Hat].
  - vm_compute in Hin. destruct Hin as [Hin | []]. discriminate Hin.
  - vm_compute in Hat. discriminate Hat.
Qed.

(** C9. When [getRepoContext] returns null or the input value is empty,
    [submitWithRepoContext] calls [submit] with its options and nothing
    else: no [setValue], and the input holds the typed value when the SDK's
    submit runs. *)
Theorem submitWithRepoContext_unchanged `{P : Platform}
    (g : Global) (value : string) (options : SubmitOptions) :
  getRepoContext g = Normal None \/ value = "" ->
  calls (submitWithRepoContext g value options) = [CallSubmit options] /\
  existsb isSetValue (calls (submitWithRepoContext g value options)) = false /\
  valueAtSubmit value (calls (submitWithRepoContext g value options))
  = Some value.
Proof.
  intros H. rewrite (submitWithRepoContext_else g value options H).
  repeat split; reflexivity.
Qed.

Lemma submitWithRepoContext_unchanged_witness :
  let options := {| streamResponse := Some true; resourceNames := ∅ |} in
  getRepoContext (P := Reference.platform) Reference.emptyWindow = Normal None /\
  calls (submitWithRepoContext (P := Reference.platform)
           Reference.emptyWindow "hello" options)
  = [CallSubmit options].
Proof.
  intros options. split; [reflexivity|].
  exact (proj1 (submitWithRepoContext_unchanged (P := Reference.platform)
                  Reference.emptyWindow "hello" options (or_introl eq_refl))).
Defined.

(** C6. In one invocation of [handleImportCodeMessage] and in one of
    [submitWithRepoContext], no [submit] comes before a [setValue]: where
    the handler sets the input value, it does so first, then waits for a
    timer, and only then calls [submit]. The import handler (lines 100-108)
    makes the calls timer, [setValue], timer, [submit], and makes none
    exactly when it rejects first (a null or undefined detail, or a
    [repoUrl] that does not render as a string); the wrapper makes
    [setValue], timer, [submit] when it has a context and a text (lines
    123-131), and [submit] alone otherwise (line 136). *)
Theorem submit_never_precedes_setValue `{P : Platform}
    (event : CustomEvent) (g : Global) (value : string)
    (options : SubmitOptions) :
  let imported := calls (handleImportCodeMessage event) in
  let wrapped := calls (submitWithRepoContext g value options) in
  (submitNeverPrecedesSetValue imported = true /\
   setValueThenDelayThenSubmit imported = true /\
   (((detail event = JNull \/ detail event = JUndefined \/
      ToString (GetV (detail event) "repoUrl") = Throw TypeError) /\
     imported = []) \/
    exists url,
      detail event <> JNull /\ detail event <> JUndefined /\
      ToString (GetV (detail event) "repoUrl") = Normal url /\
      imported = [CallSetTimeout 200;
                  CallSetValue
                    ("<!-- HIDDEN:import-code-initialization -->I want to explore this GitHub repository: "
                     ++ url);
                  CallSetTimeout 50;
                  CallSubmit {| streamResponse := Some true;
                                resourceNames := ∅ |}])) /\
  (submitNeverPrecedesSetValue wrapped = true /\
   setValueThenDelayThenSubmit wrapped = true /\
   (((getRepoContext g = Normal None \/ value = "") /\
     wrapped = [CallSubmit options]) \/
    exists ctx,
      getRepoContext g = Normal (Some ctx) /\ value <> "" /\
      wrapped = [CallSetValue (value ++ ctx); CallSetTimeout 50;
                 CallSubmit options])).
Proof.
  intros imported wrapped. split.
  - subst imported.
    destruct (handleImportCodeMessage_cases event)
      as [[Hrej ->] | (url & Hn & Hu & Hurl & ->)]; cbn [calls].
    + repeat split; try reflexivity. left. split; [exact Hrej | reflexivity].
    + repeat split; try reflexivity. right. exists url. auto.
  - subst wrapped.
    destruct (submitWithRepoContext_cases g value options)
      as [[Hno ->] | (ctx & Hctx & Hv & ->)].
    + repeat split; try reflexivity. left. split; [exact Hno | reflexivity].
    + repeat split; try reflexivity. right. exists ctx. auto.
Qed.

(** ** The window listeners *)

Section EffectFacts.
Context `{P : Platform}.

Lemma same_listener_refl (ty : string) (l : Listener) :
  same_listener ty l (ty, l) = true.
Proof.
  unfold same_listener. cbn [fst snd].
  rewrite String.eqb_refl, Nat.eqb_refl. reflexivity.
Qed.

Lemma same_listener_identity (ty : string) (l : Listener)
    (entry : string * Listener) :
  identity (snd entry) <> identity l -> same_listener ty l entry = false.
Proof.
  intros Hne. unfold same_listener.
  destruct (Nat.eqb_spec (identity l) (identity (snd entry))) as [E|_].
  - congruence.
  - apply andb_false_r.
Qed.

Lemma same_listener_type (ty : string) (l : Listener)
    (entry : string * Listener) :
  String.eqb ty (fst entry) = false -> same_listener ty l entry = false.
Proof. intros H. unfold same_listener. rewrite H. reflexivity. Qed.

Lemma existsb_same_listener_fresh (ty : string) (l : Listener)
    (entries : list (string * Listener)) :
  Forall (fun entry => identity (snd entry) < identity l) entries ->
  existsb (same_listener ty l) entries = false.
Proof.
  induction 1 as [|e entries He _ IH]; [reflexivity|].
  cbn [existsb]. rewrite IH, same_listener_identity; [reflexivity | lia].
Qed.

Lemma remove_first_app_miss (ty : string) (l : Listener)
    (before after : list (string * Listener)) :
  Forall (fun entry => identity (snd entry) < identity l) before ->
  remove_first ty l (before ++ after)%list
  = (before ++ remove_first ty l after)%list.
Proof.
  induction 1 as [|e before He _ IH]; [reflexivity|].
  cbn [app remove_first]. rewrite same_listener_identity by lia.
  now rewrite IH.
Qed.

(** A listener added to a fresh window is appended, and the next closure
    is newer than all. *)
Lemma addEventListener_closure (ty : string) (f : CustomEvent -> Async unit)
    (t : EventTarget) :
  fresh t ->
  let '(l, t') := closure f t in
  addEventListener ty l t' =
  {| listeners := (listeners t ++ [(ty, {| identity := next_identity t; call := f |})])%list;
     next_identity := S (next_identity t) |}.
Proof.
  intros Hf. unfold closure, addEventListener. cbn [listeners next_identity].
  rewrite existsb_same_listener_fresh; [reflexivity | exact Hf].
Qed.

Lemma startNewThreadEffect_run (t : EventTarget) :
  fresh t ->
  startNewThreadEffect t =
  ({| listeners := (listeners t ++ [startNewThreadEntry (next_identity t)])%list;
      next_identity := S (next_identity t) |},
   fun t' =>
     removeEventListener (fst (startNewThreadEntry (next_identity t)))
                         (snd (startNewThreadEntry (next_identity t))) t').
Proof.
  intros Hf. unfold startNewThreadEffect.
  pose proof (addEventListener_closure "gitstory-start-new-thread"
                handleStartNewThread t Hf) as H.
  unfold closure in *. rewrite H. reflexivity.
Qed.

Lemma importCodeMessageEffect_run (t : EventTarget) :
  fresh t ->
  importCodeMessageEffect t =
  ({| listeners := (listeners t ++ [importCodeMessageEntry (next_identity t)])%list;
      next_identity := S (next_identity t) |},
   fun t' =>
     removeEventListener (fst (importCodeMessageEntry (next_identity t)))
                         (snd (importCodeMessageEntry (next_identity t))) t').
Proof.
  intros Hf. unfold importCodeMessageEffect.
  pose proof (addEventListener_closure "gitstory-import-code-message"
                handleImportCodeMessage t Hf) as H.
  unfold closure in *. rewrite H. reflexivity.
Qed.

Lemma fresh_snoc (entries : list (string * Listener)) (n : nat)
    (ty : string) (f : CustomEvent -> Async unit) :
  Forall (fun entry => identity (snd entry) < n) entries ->
  fresh {| listeners := (entries ++ [(ty, {| identity := n; call := f |})])%list;
           next_identity := S n |}.
Proof.
  intros H. unfold fresh. cbn [listeners next_identity].
  apply Forall_app. split.
  - eapply Forall_impl; [exact H|]. cbn. intros; lia.
  - constructor; [cbn; lia | constructor].
Qed.

Lemma fresh_remove_first (ty : string) (l : Listener) (t : EventTarget) :
  fresh t -> fresh (removeEventListener ty l t).
Proof.
  unfold fresh, removeEventListener. cbn [listeners next_identity].
  generalize (next_identity t) as n. intros n.
  induction 1 as [|e entries He Hrest IH]; cbn [remove_first]; [constructor|].
  destruct (same_listener ty l e); [exact Hrest | constructor; assumption].
Qed.
End EffectFacts.

Section Lifecycle.
Context `{P : Platform}.

Lemma remove_first_middle (ty : string) (l : Listener)
    (before after : list (string * Listener)) :
  Forall (fun entry => same_listener ty l entry = false) before ->
  remove_first ty l (before ++ (ty, l) :: after)%list = (before ++ after)%list.
Proof.
  induction 1 as [|e before He _ IH].
  - cbn [app remove_first]. now rewrite same_listener_refl.
  - cbn [app remove_first]. now rewrite He, IH.
Qed.

Lemma others_miss (ty : string) (l : Listener)
    (others : list (string * Listener)) (Q : string * Listener -> Prop) :
  Forall Q others ->
  (forall entry, Q entry -> identity (snd entry) < identity l) ->
  Forall (fun entry => same_listener ty l entry = false) others.
Proof.
  intros H HQ. eapply Forall_impl; [exact H|].
  intros e He. apply same_listener_identity. specialize (HQ e He). lia.
Qed.

(** Mounting in a fresh window installs the instance. *)
Lemma mount_installed (t : EventTarget) :
  fresh t -> Installed (listeners t) (fst (mount t)) (snd (mount t)).
Proof.
  intros Hf. unfold mount.
  rewrite (startNewThreadEffect_run t Hf).
  rewrite importCodeMessageEffect_run by (apply fresh_snoc; exact Hf).
  cbn [fst snd listeners next_identity].
  apply (installed _ _ _ (next_identity t) (S (next_identity t))).
  - unfold fresh. cbn [listeners next_identity].
    rewrite !Forall_app. repeat split.
    + eapply Forall_impl; [exact Hf|]. cbn. intros; lia.
    + repeat constructor.
    + repeat constructor.
  - eapply Forall_impl; [exact Hf|]. cbn. intros; lia.
  - left. cbn [listeners]. now rewrite <- app_assoc.
  - reflexivity.
  - reflexivity.
Qed.

Lemma same_startNewThread_own (i : nat) :
  same_listener (fst (startNewThreadEntry i)) (snd (startNewThreadEntry i))
                (startNewThreadEntry i) = true.
Proof. apply same_listener_refl. Qed.

Lemma same_importCodeMessage_own (i : nat) :
  same_listener (fst (importCodeMessageEntry i)) (snd (importCodeMessageEntry i))
                (importCodeMessageEntry i) = true.
Proof. apply same_listener_refl. Qed.

Lemma same_startNewThread_other (i j : nat) :
  same_listener (fst (startNewThreadEntry i)) (snd (startNewThreadEntry i))
                (importCodeMessageEntry j) = false.
Proof. apply same_listener_type. reflexivity. Qed.

Lemma same_importCodeMessage_other (i j : nat) :
  same_listener (fst (importCodeMessageEntry i)) (snd (importCodeMessageEntry i))
                (startNewThreadEntry j) = false.
Proof. apply same_listener_type. reflexivity. Qed.

(** Removing one of the instance's entries from the list of an installed
    instance leaves the others where they are. *)
Lemma remove_own (own : string * Listener)
    (others rest : list (string * Listener)) (t : EventTarget) :
  listeners t = (others ++ rest)%list ->
  Forall (fun entry => identity (snd entry) < identity (snd own)) others ->
  removeEventListener (fst own) (snd own) t =
  {| listeners := (others ++ remove_first (fst own) (snd own) rest)%list;
     next_identity := next_identity t |}.
Proof.
  intros Hl Ho. unfold removeEventListener. rewrite Hl.
  now rewrite remove_first_app_miss.
Qed.

Lemma fresh_listeners (t : EventTarget) (entries : list (string * Listener)) :
  fresh t -> listeners t = entries ->
  Forall (fun entry => identity (snd entry) < next_identity t) entries.
Proof. intros Hf <-. exact Hf. Qed.
End Lifecycle.

Section Rerender.
Context `{P : Platform}.
Local Arguments startNewThreadEntry : simpl never.
Local Arguments importCodeMessageEntry : simpl never.

Lemma startNewThreadEffect_on (entries : list (string * Listener)) (n : nat) :
  Forall (fun entry => identity (snd entry) < n) entries ->
  startNewThreadEffect {| listeners := entries; next_identity := n |} =
  ({| listeners := (entries ++ [startNewThreadEntry n])%list;
      next_identity := S n |},
   fun t' => removeEventListener (fst (startNewThreadEntry n))
                                 (snd (startNewThreadEntry n)) t').
Proof. intros H. now rewrite startNewThreadEffect_run. Qed.

Lemma importCodeMessageEffect_on (entries : list (string * Listener)) (n : nat) :
  Forall (fun entry => identity (snd entry) < n) entries ->
  importCodeMessageEffect {| listeners := entries; next_identity := n |} =
  ({| listeners := (entries ++ [importCodeMessageEntry n])%list;
      next_identity := S n |},
   fun t' => removeEventListener (fst (importCodeMessageEntry n))
                                 (snd (importCodeMessageEntry n)) t').
Proof. intros H. now rewrite importCodeMessageEffect_run. Qed.

Lemma Forall_identity_mono (entries : list (string * Listener)) (n n' : nat) :
  Forall (fun entry => identity (snd entry) < n) entries -> n <= n' ->
  Forall (fun entry => identity (snd entry) < n') entries.
Proof. intros H Hn. eapply Forall_impl; [exact H|]. cbn. intros; lia. Qed.

Ltac remove_entry :=
  unfold removeEventListener; cbn [listeners next_identity];
  rewrite remove_first_app_miss by assumption;
  cbn [remove_first];
  rewrite ?same_startNewThread_own, ?same_importCodeMessage_own,
    ?same_startNewThread_other, ?same_importCodeMessage_other.

Ltac newer :=
  repeat first
    [ apply Forall_app; split
    | apply Forall_cons; split
    | apply Forall_nil
    | eapply Forall_identity_mono; [eassumption | lia]
    | unfold startNewThreadEntry, importCodeMessageEntry; cbn; lia ].

Lemma rerender_installed (d1 d2 : bool) (others : list (string * Listener))
    (m : Mounted) (t : EventTarget) :
  Installed others m t ->
  Installed others (fst (rerender d1 d2 m t)) (snd (rerender d1 d2 m t)).
Proof.
  intros [i1 i2 Hf Ho Hl Hc1 Hc2].
  assert (Ho1 : Forall (fun e => identity (snd e) < identity (snd (startNewThreadEntry i1))) others).
  { eapply Forall_impl; [exact Ho|]. cbn. intros ? []; assumption. }
  assert (Ho2 : Forall (fun e => identity (snd e) < identity (snd (importCodeMessageEntry i2))) others).
  { eapply Forall_impl; [exact Ho|]. cbn. intros ? []; assumption. }
  unfold rerender. rewrite Hc1, Hc2.
  destruct t as [entries n]. unfold fresh in Hf. cbn [listeners next_identity] in Hf, Hl.
  assert (Hn : Forall (fun e => identity (snd e) < n) others
               /\ i1 < n /\ i2 < n).
  { destruct Hl as [Hl|Hl]; rewrite Hl in Hf;
      apply Forall_app in Hf as [H1 H2];
      inversion H2 as [|? ? Ha H3]; inversion H3 as [|? ? Hb _]; subst;
      cbn in Ha, Hb; auto. }
  destruct Hn as (Hon & Hi1 & Hi2).
  destruct d1, d2; destruct Hl as [Hl|Hl]; subst entries.
  all: repeat remove_entry.
  all: rewrite ?app_nil_r.
  all: assert (Ho' := conj Ho1 Ho2); clear Ho1 Ho2.
  all: rewrite ?startNewThreadEffect_on by newer.
  all: rewrite ?importCodeMessageEffect_on by newer.
  all: cbn [fst snd].
  all: eapply installed; [ | | | reflexivity | reflexivity ].
  all: try (unfold fresh; cbn [listeners next_identity]; newer).
  all: try (apply Forall_and; split; newer).
  all: cbn [listeners]; rewrite <- ?app_assoc; cbn [app].
  all: try (left; reflexivity).
  all: try (right; reflexivity).
  all: destruct Ho' as [Ho1 Ho2]; assumption.
Qed.

Lemma rerenders_installed (ds : list (bool * bool))
    (others : list (string * Listener)) (m : Mounted) (t : EventTarget) :
  Installed others m t ->
  Installed others (fst (rerenders ds m t)) (snd (rerenders ds m t)).
Proof.
  revert m t. induction ds as [|[d1 d2] ds IH]; intros m t H; [exact H|].
  cbn [rerenders].
  pose proof (rerender_installed d1 d2 others m t H) as H'.
  destruct (rerender d1 d2 m t) as [m' t']. apply IH. exact H'.
Qed.

(** However often the component re-rendered since it mounted, its two
    entries are the only ones it has in the list. *)
Lemma committed_installed (ds : list (bool * bool)) (t : EventTarget) :
  fresh t ->
  Installed (listeners t) (fst (committed ds t)) (snd (committed ds t)).
Proof.
  intros Hf. unfold committed.
  pose proof (mount_installed t Hf) as H.
  destruct (mount t) as [m t1]. now apply rerenders_installed.
Qed.

(** The cleanups of an installed instance take its two entries out. *)
Lemma unmount_installed (others : list (string * Listener)) (m : Mounted)
    (t : EventTarget) :
  Installed others m t -> listeners (unmount m t) = others.
Proof.
  intros [i1 i2 Hf Ho Hl Hc1 Hc2].
  assert (Ho1 : Forall (fun e => identity (snd e) < identity (snd (startNewThreadEntry i1))) others).
  { eapply Forall_impl; [exact Ho|]. cbn. intros ? []; assumption. }
  assert (Ho2 : Forall (fun e => identity (snd e) < identity (snd (importCodeMessageEntry i2))) others).
  { eapply Forall_impl; [exact Ho|]. cbn. intros ? []; assumption. }
  unfold unmount. rewrite Hc1, Hc2.
  destruct t as [entries n]. cbn [listeners] in Hl.
  destruct Hl as [Hl|Hl]; subst entries; repeat remove_entry;
    cbn [listeners]; apply app_nil_r.
Qed.

(** What an installed instance adds to a dispatch: one invocation of the
    handler registered for the event's type, after those of the listeners
    that were there before. *)
Lemma dispatchEvent_installed (others : list (string * Listener))
    (m : Mounted) (t : EventTarget) (event : CustomEvent) (n : nat) :
  Installed others m t ->
  dispatchEvent event t =
  (dispatchEvent event {| listeners := others; next_identity := n |}
   ++ (if String.eqb (type event) "gitstory-start-new-thread"
       then [handleStartNewThread event] else [])
   ++ (if String.eqb (type event) "gitstory-import-code-message"
       then [handleImportCodeMessage event] else []))%list.
Proof.
  intros [i1 i2 Hf Ho Hl Hc1 Hc2]. unfold dispatchEvent. cbn [listeners].
  destruct Hl as [-> | ->]; rewrite List.filter_app, map_app; f_equal;
    unfold startNewThreadEntry, importCodeMessageEntry; cbn [List.filter fst snd].
  - destruct (String.eqb (type event) "gitstory-start-new-thread");
      destruct (String.eqb (type event) "gitstory-import-code-message");
      reflexivity.
  - destruct (String.eqb_spec (type event) "gitstory-start-new-thread") as [E|E];
      destruct (String.eqb_spec (type event) "gitstory-import-code-message") as [E'|E'];
      try reflexivity.
    rewrite E in E'. discriminate E'.
Qed.
End Rerender.

(** C4. While the component is mounted, however often it re-rendered, a
    dispatch of ["gitstory-start-new-thread"] runs, after the listeners that
    were there before the component, exactly one handler of the component,
    and that invocation calls [startNewThread] once and nothing else. *)
Theorem startNewThread_once_per_dispatch `{P : Platform}
    (t : EventTarget) (ds : list (bool * bool)) (event : CustomEvent) :
  fresh t ->
  type event = "gitstory-start-new-thread" ->
  dispatchEvent event (snd (committed ds t)) =
  (dispatchEvent event t
   ++ [{| calls := [CallStartNewThread]; outcome := Normal tt |}])%list.
Proof.
  intros Hf Hty.
  rewrite (dispatchEvent_installed (listeners t) _ _ event (next_identity t)
             (committed_installed ds t Hf)).
  rewrite Hty. destruct t as [entries n]. reflexivity.
Qed.

Lemma startNewThread_once_per_dispatch_witness :
  let t := {| listeners := []; next_identity := 0 |} in
  let event := {| type := "gitstory-start-new-thread"; detail := JNull |} in
  fresh (P := Reference.platform) t /\
  dispatchEvent (P := Reference.platform) event
    (snd (committed [(true, false); (false, true); (true, true)] t))
  = [{| calls := [CallStartNewThread]; outcome := Normal tt |}].
Proof.
  intros t event. split; [constructor|].
  exact (startNewThread_once_per_dispatch (P := Reference.platform) t
           [(true, false); (false, true); (true, true)] event
           (List.Forall_nil _) eq_refl).
Defined.

(** C3. While the component is mounted, a dispatch of
    ["gitstory-import-code-message"] whose detail is [{repoUrl}] runs one
    handler of the component; it sets the input value to the tag
    [<!-- HIDDEN:import-code-initialization -->] followed by
    [I want to explore this GitHub repository: ] and the given URL, and then
    calls [submit] with [streamResponse: true]. *)
Theorem importCodeMessage_dispatch `{P : Platform}
    (t : EventTarget) (ds : list (bool * bool)) (event : CustomEvent)
    (props : list (string * Value)) (repoUrl : string) :
  fresh t ->
  type event = "gitstory-import-code-message" ->
  detail event = JObject props ->
  assoc "repoUrl" props = Some (JString repoUrl) ->
  dispatchEvent event (snd (committed ds t)) =
  (dispatchEvent event t
   ++ [{| calls :=
            [CallSetTimeout 200;
             CallSetValue ("<!-- HIDDEN:import-code-initialization -->"
                           ++ "I want to explore this GitHub repository: "
                           ++ repoUrl);
             CallSetTimeout 50;
             CallSubmit {| streamResponse := Some true; resourceNames := ∅ |}];
          outcome := Normal tt |}])%list.
Proof.
  intros Hf Hty Hd Hurl.
  rewrite (dispatchEvent_installed (listeners t) _ _ event (next_identity t)
             (committed_installed ds t Hf)).
  rewrite Hty. cbn [String.eqb Ascii.eqb Bool.eqb app].
  assert (Hrender : ToString (GetV (detail event) "repoUrl") = Normal repoUrl).
  { rewrite Hd. cbn [GetV]. rewrite Hurl. reflexivity. }
  destruct (handleImportCodeMessage_cases event)
    as [[[Hn | [Hu | Hthrow]] _] | (url & _ & _ & Hrender' & Hc)].
  - rewrite Hd in Hn. discriminate Hn.
  - rewrite Hd in Hu. discriminate Hu.
  - rewrite Hrender in Hthrow. discriminate Hthrow.
  - rewrite Hrender in Hrender'. injection Hrender' as <-.
    rewrite Hc. destruct t as [entries n]. reflexivity.
Qed.

Lemma importCodeMessage_dispatch_witness :
  let t := {| listeners := []; next_identity := 0 |} in
  let event :=
    {| type := "gitstory-import-code-message";
       detail := JObject [("repoUrl",
                           JString "https://github.com/Random-Pikachu/GitStory")] |} in
  fresh (P := Reference.platform) t /\
  map calls (dispatchEvent (P := Reference.platform) event
               (snd (committed [(false, true)] t)))
  = [[CallSetTimeout 200;
      CallSetValue
        "<!-- HIDDEN:import-code-initialization -->I want to explore this GitHub repository: https://github.com/Random-Pikachu/GitStory";
      CallSetTimeout 50;
      CallSubmit {| streamResponse := Some true; resourceNames := ∅ |}]].
Proof.
  intros t event. split; [constructor|].
  rewrite (importCodeMessage_dispatch (P := Reference.platform) t [(false, true)]
             event _ "https://github.com/Random-Pikachu/GitStory"
             (List.Forall_nil _) eq_refl eq_refl eq_refl).
  reflexivity.
Defined.

(** C7. Each effect of the component that adds a window listener returns a
    cleanup that removes that very listener for the same event name, and
    running it right away gives the listener list back. So after the
    component mounted, re-rendered any number of times and unmounted, the
    list is the one it found: none of its listeners stays registered. *)
Theorem listeners_balanced `{P : Platform}
    (t : EventTarget) (ds : list (bool * bool)) :
  fresh t ->
  Forall (fun effect : Effect =>
            exists (ty : string) (l : Listener),
              listeners (fst (effect t)) = (listeners t ++ [(ty, l)])%list /\
              (forall t', snd (effect t) t' = removeEventListener ty l t') /\
              listeners (snd (effect t) (fst (effect t))) = listeners t)
         effects /\
  listeners (unmount (fst (committed ds t)) (snd (committed ds t)))
  = listeners t.
Proof.
  intros Hf. split.
  - assert (Hmiss : forall ty f,
               Forall (fun entry =>
                         same_listener ty {| identity := next_identity t; call := f |}
                                       entry = false) (listeners t)).
    { intros ty f. eapply Forall_impl; [exact Hf|].
      intros e He. apply same_listener_identity. cbn in He |- *. lia. }
    unfold effects. repeat constructor.
    + rewrite (startNewThreadEffect_run t Hf). cbn [fst snd].
      eexists _, _. split; [reflexivity|]. split; [reflexivity|].
      unfold removeEventListener, startNewThreadEntry. cbn [listeners fst snd].
      rewrite remove_first_middle by apply Hmiss. apply app_nil_r.
    + rewrite (importCodeMessageEffect_run t Hf). cbn [fst snd].
      eexists _, _. split; [reflexivity|]. split; [reflexivity|].
      unfold removeEventListener, importCodeMessageEntry. cbn [listeners fst snd].
      rewrite remove_first_middle by apply Hmiss. apply app_nil_r.
  - apply unmount_installed, committed_installed, Hf.
Qed.

Lemma listeners_balanced_witness :
  let t := {| listeners := []; next_identity := 0 |} in
  fresh (P := Reference.platform) t /\
  listeners (P := Reference.platform)
    (unmount (fst (committed [(true, true); (false, true)] t))
             (snd (committed [(true, true); (false, true)] t)))
  = [].
Proof.
  intros t. split; [constructor|].
  exact (proj2 (listeners_balanced (P := Reference.platform) t
                  [(true, true); (false, true)] (List.Forall_nil _))).
Defined.

(** ** The page *)

(** C5. [Home] renders a [TamboProvider] at the root, given the API key
    read from [NEXT_PUBLIC_TAMBO_API_KEY], the registered components and
    tools, and the MCP servers [useMcpServers] returned; the one
    [MessageThreadFull] of the page is below it. *)
Theorem Home_provider_wraps_thread {Components Tools McpServers : Type}
    (components : Components) (tools : Tools)
    (useMcpServers : unit -> McpServers)
    (process_env : string -> option string) :
  let page := Home components tools useMcpServers process_env in
  let isThread := fun e : Element =>
    match tagOf e with
    | Some tag => String.eqb tag "MessageThreadFull"
    | None => false
    end in
  tagOf page = Some "TamboProvider" /\
  prop "apiKey" (propsOf page)
  = Some (EnvValue (process_env "NEXT_PUBLIC_TAMBO_API_KEY")) /\
  prop "components" (propsOf page) = Some (ComponentsValue components) /\
  prop "tools" (propsOf page) = Some (ToolsValue tools) /\
  prop "mcpServers" (propsOf page) = Some (McpServersValue (useMcpServers tt)) /\
  isThread page = false /\
  List.filter isThread (descendants page)
  = [Node "MessageThreadFull"
       [("className", Literal "max-w-4xl mx-auto h-full")] []].
Proof. repeat split; reflexivity. Qed.

(** * Further properties of the code *)

(** ** When [getRepoContext] returns a string, and which *)

Section ContextFacts.
Context `{P : Platform}.

Lemma truthy_inv (saved : option string) :
  truthy saved = true -> exists s, saved = Some s /\ s <> "".
Proof.
  destruct saved as [s|]; [|discriminate]. simpl.
  destruct (String.eqb_spec s ""); [discriminate|]. intros _. eauto.
Qed.

Lemma RequireObjectCoercible_inv (v obj : Value) :
  RequireObjectCoercible v = Normal obj ->
  obj = v /\ v <> JNull /\ v <> JUndefined.
Proof.
  destruct v; simpl; intros H; try discriminate H;
    injection H as <-; repeat split; discriminate.
Qed.

Lemma RequireObjectCoercible_intro (v : Value) :
  v <> JNull -> v <> JUndefined -> RequireObjectCoercible v = Normal v.
Proof. destruct v; simpl; intros; try reflexivity; contradiction. Qed.

(** What lies behind a returned string. *)
Lemma getRepoContext_Some_inv (g : Global) (ctx : string) :
  getRepoContext g = Normal (Some ctx) ->
  exists w store saved v url,
    g = Some w /\
    localStorage w = Normal store /\
    store !! "gitstory-repo" = Some saved /\
    saved <> "" /\
    JSON_parse saved = Normal v /\
    v <> JNull /\ v <> JUndefined /\
    repoUrlOf (GetV v "owner") (GetV v "repo") (GetV v "branch") = Normal url /\
    ctx = repoContextOf url.
Proof.
  destruct g as [w|]; [|discriminate].
  rewrite getRepoContext_window. unfold getRepoContext_try, getItem.
  destruct (localStorage w) as [store|e] eqn:Hstore; simpl; [|discriminate].
  destruct (truthy (store !! "gitstory-repo")) eqn:Ht; [|discriminate].
  destruct (truthy_inv _ Ht) as (saved & Hsaved & Hne).
  rewrite Hsaved. simpl stringOf.
  destruct (JSON_parse saved) as [v|e] eqn:Hparse; simpl; [|discriminate].
  destruct (RequireObjectCoercible v) as [obj|e] eqn:Hobj; simpl; [|discriminate].
  destruct (RequireObjectCoercible_inv _ _ Hobj) as (-> & Hn & Hu).
  destruct (repoUrlOf _ _ _) as [url|e] eqn:Hurl; simpl; [|discriminate].
  intros [= <-]. exists w, store, saved, v, url. repeat split; auto.
Qed.

Lemma getRepoContext_Some_intro (store : gmap string string)
    (saved : string) (v : Value) (url : string) :
  store !! "gitstory-repo" = Some saved ->
  saved <> "" ->
  JSON_parse saved = Normal v ->
  v <> JNull -> v <> JUndefined ->
  repoUrlOf (GetV v "owner") (GetV v "repo") (GetV v "branch") = Normal url ->
  getRepoContext (Some {| localStorage := Normal store |})
  = Normal (Some (repoContextOf url)).
Proof.
  intros Hsaved Hne Hparse Hn Hu Hurl.
  rewrite getRepoContext_window, getRepoContext_try_store.
  rewrite Hsaved. cbv zeta. rewrite (truthy_Some _ Hne). simpl stringOf.
  rewrite Hparse. simpl. rewrite (RequireObjectCoercible_intro v Hn Hu).
  simpl. rewrite Hurl. reflexivity.
Qed.

(** The URL is built when the owner, the repo and, if truthy, the branch
    render as strings. *)
Lemma repoUrlOf_Normal_inv (owner repo branch : Value) (url : string) :
  repoUrlOf owner repo branch = Normal url ->
  exists o r,
    ToString owner = Normal o /\ ToString repo = Normal r /\
    ((ToBoolean branch = false /\
      url = "https://github.com/" ++ o ++ "/" ++ r) \/
     (exists b, ToBoolean branch = true /\ ToString branch = Normal b /\
                url = "https://github.com/" ++ o ++ "/" ++ r ++ "/tree/" ++ b)).
Proof.
  unfold repoUrlOf.
  destruct (ToString owner) as [o|e]; simpl; [|discriminate].
  destruct (ToString repo) as [r|e]; simpl; [|discriminate].
  destruct (ToBoolean branch).
  - destruct (ToString branch) as [b|e]; simpl; [|discriminate].
    intros [= <-]. exists o, r. repeat split. right. exists b. auto.
  - simpl. intros [= <-]. exists o, r. repeat split. left. split; [reflexivity|].
    now rewrite append_nil_r.
Qed.
End ContextFacts.

(** X1. [getRepoContext] returns a string exactly when there is a window
    whose storage can be read, the text saved under ["gitstory-repo"] is
    not empty, [JSON.parse] accepts it, the parsed value is neither null nor
    undefined, and the template of line 74 does not throw on its [owner],
    [repo] and [branch] properties (it throws on an object with a
    [toString] property of its own); the string is then the frame of line
    75 around that URL. In every other case the result is null. *)
Theorem getRepoContext_returns_string_iff `{P : Platform}
    (g : Global) (ctx : string) :
  getRepoContext g = Normal (Some ctx) <->
  exists w store saved v url,
    g = Some w /\
    localStorage w = Normal store /\
    store !! "gitstory-repo" = Some saved /\
    saved <> "" /\
    JSON_parse saved = Normal v /\
    v <> JNull /\ v <> JUndefined /\
    repoUrlOf (GetV v "owner") (GetV v "repo") (GetV v "branch") = Normal url /\
    ctx = repoContextOf url.
Proof.
  split.
  - apply getRepoContext_Some_inv.
  - intros (w & store & saved & v & url & -> & Hstore & Hsaved & Hne & Hparse
            & Hn & Hu & Hurl & ->).
    destruct w as [ls]. simpl in Hstore. subst ls.
    now apply getRepoContext_Some_intro with (saved := saved) (v := v).
Qed.

(** X2. Every string [getRepoContext] returns has the same frame: two line
    feeds, then [[Repository Context: https://github.com/], then a path,
    then a closing bracket. *)
Theorem getRepoContext_frame `{P : Platform} (g : Global) (ctx : string) :
  getRepoContext g = Normal (Some ctx) ->
  exists path,
    ctx = LF ++ LF ++ "[Repository Context: https://github.com/" ++ path ++ "]".
Proof.
  intros H.
  destruct (getRepoContext_Some_inv g ctx H)
    as (w & store & saved & v & url & _ & _ & _ & _ & _ & _ & _ & Hurl & ->).
  destruct (repoUrlOf_Normal_inv _ _ _ _ Hurl)
    as (o & r & _ & _ & [[_ ->] | (b & _ & _ & ->)]).
  - exists (o ++ "/" ++ r). unfold repoContextOf.
    rewrite !append_assoc. reflexivity.
  - exists (o ++ "/" ++ r ++ "/tree/" ++ b). unfold repoContextOf.
    rewrite !append_assoc. reflexivity.
Qed.

Lemma getRepoContext_frame_witness :
  let g := Reference.windowWith (Reference.selection "octocat" "hello-world" "main") in
  let ctx := LF ++ LF ++
    "[Repository Context: https://github.com/octocat/hello-world/tree/main]" in
  getRepoContext (P := Reference.platform) g = Normal (Some ctx) /\
  exists path,
    ctx = LF ++ LF ++ "[Repository Context: https://github.com/" ++ path ++ "]".
Proof.
  intros g ctx. split; [reflexivity|].
  exact (getRepoContext_frame (P := Reference.platform) g ctx eq_refl).
Defined.

(** X3. The saved value is not validated: when the text parses to a value
    that is not null and has none of the properties [owner], [repo] and
    [branch] (a number, a string, an array, an empty object),
    [getRepoContext] still returns a context, with [undefined] for owner and
    repo and no branch part. *)
Theorem getRepoContext_without_properties `{P : Platform}
    (store : gmap string string) (saved : string) (v : Value) :
  store !! "gitstory-repo" = Some saved ->
  saved <> "" ->
  JSON_parse saved = Normal v ->
  v <> JNull -> v <> JUndefined ->
  GetV v "owner" = JUndefined ->
  GetV v "repo" = JUndefined ->
  GetV v "branch" = JUndefined ->
  getRepoContext (Some {| localStorage := Normal store |})
  = Normal (Some (LF ++ LF ++
      "[Repository Context: https://github.com/undefined/undefined]")).
Proof.
  intros Hsaved Hne Hparse Hn Hu Ho Hr Hb.
  rewrite (getRepoContext_Some_intro store saved v
             "https://github.com/undefined/undefined"
             Hsaved Hne Hparse Hn Hu); [reflexivity|].
  rewrite Ho, Hr, Hb. reflexivity.
Qed.

Lemma getRepoContext_without_properties_witness :
  getRepoContext (P := Reference.platform) (Reference.windowWith "[1, 2]")
  = Normal (Some (LF ++ LF ++
      "[Repository Context: https://github.com/undefined/undefined]")).
Proof.
  refine (getRepoContext_without_properties (P := Reference.platform)
            {[ "gitstory-repo" := "[1, 2]" ]} "[1, 2]"
            (JArray [JNumber 1%Z; JNumber 2%Z])
            eq_refl _ eq_refl _ _ eq_refl eq_refl eq_refl); discriminate.
Defined.

(** ** The import handler on any detail *)

Section ImportFacts.
Context `{P : Platform}.

Lemma handleImportCodeMessage_rendered (event : CustomEvent) (url : string) :
  detail event <> JNull -> detail event <> JUndefined ->
  ToString (GetV (detail event) "repoUrl") = Normal url ->
  handleImportCodeMessage event =
  {| calls := [CallSetTimeout 200;
               CallSetValue
                 (hiddenTag ++ "I want to explore this GitHub repository: " ++ url);
               CallSetTimeout 50;
               CallSubmit {| streamResponse := Some true; resourceNames := ∅ |}];
     outcome := Normal tt |}.
Proof.
  intros Hn Hu Hurl.
  destruct (handleImportCodeMessage_cases event)
    as [[[H | [H | H]] _] | (url' & _ & _ & Hurl' & ->)];
    try contradiction.
  - rewrite Hurl in H. discriminate H.
  - rewrite Hurl in Hurl'. injection Hurl' as <-. reflexivity.
Qed.

Lemma prefix_append (a b : string) : String.prefix a (a ++ b) = true.
Proof.
  induction a as [|x a IH]; [destruct b; reflexivity|].
  change (String.prefix (String x a) (String x (a ++ b)) = true).
  simpl. destruct (ascii_dec x x) as [_|Hne]; [exact IH | contradiction].
Qed.

Lemma prefix_hiddenTag (rest : string) :
  String.prefix hiddenTag (hiddenTag ++ rest) = true.
Proof. apply prefix_append. Qed.
End ImportFacts.

(** X4. [handleImportCodeMessage] rejects with a TypeError, before any
    timer and any call into the SDK, exactly when the event carries no
    detail (null or undefined: the destructuring of line 98 throws) or the
    [repoUrl] of the detail does not render as a string (an object with a
    [toString] property of its own: the template of line 100 throws). *)
Theorem handleImportCodeMessage_rejects_iff `{P : Platform}
    (event : CustomEvent) :
  (detail event = JNull \/ detail event = JUndefined \/
   ToString (GetV (detail event) "repoUrl") = Throw TypeError) <->
  handleImportCodeMessage event = {| calls := []; outcome := Throw TypeError |}.
Proof.
  destruct (handleImportCodeMessage_cases event)
    as [[Hrej Hc] | (url & Hn & Hu & Hurl & Hc)].
  - split; auto.
  - split.
    + intros [H | [H | H]]; try contradiction.
      rewrite Hurl in H. discriminate H.
    + rewrite Hc. discriminate.
Qed.

(** X5. Whatever the detail of the event, every input value the import
    handler sets starts with the tag
    [<!-- HIDDEN:import-code-initialization -->], and every submit it makes
    asks for a streamed response with no resource names. *)
Theorem handleImportCodeMessage_always_hidden `{P : Platform}
    (event : CustomEvent) :
  forallb (fun c =>
             match c with
             | CallSetValue v => String.prefix hiddenTag v
             | CallSubmit o =>
                 bool_decide (streamResponse o = Some true) &&
                 bool_decide (resourceNames o = ∅)
             | CallStartNewThread => false
             | CallSetTimeout _ => true
             end)
          (calls (handleImportCodeMessage event)) = true.
Proof.
  destruct (handleImportCodeMessage_cases event)
    as [[_ ->] | (url & _ & _ & _ & ->)]; cbn [calls forallb].
  - reflexivity.
  - change ("<!-- HIDDEN:import-code-initialization -->I want to explore this GitHub repository: "
            ++ url)
      with (hiddenTag ++ "I want to explore this GitHub repository: " ++ url).
    rewrite prefix_hiddenTag. reflexivity.
Qed.

(** X6. The detail is not validated: an event whose detail is there but has
    no [repoUrl] still makes the handler set and submit the hidden message,
    with the text [undefined] where the URL belongs. *)
Theorem handleImportCodeMessage_without_repoUrl `{P : Platform}
    (event : CustomEvent) :
  detail event <> JNull -> detail event <> JUndefined ->
  GetV (detail event) "repoUrl" = JUndefined ->
  calls (handleImportCodeMessage event) =
  [CallSetTimeout 200;
   CallSetValue (hiddenTag ++ "I want to explore this GitHub repository: undefined");
   CallSetTimeout 50;
   CallSubmit {| streamResponse := Some true; resourceNames := ∅ |}].
Proof.
  intros Hn Hu Hurl.
  rewrite (handleImportCodeMessage_rendered event "undefined" Hn Hu);
    [reflexivity|].
  rewrite Hurl. reflexivity.
Qed.

Lemma handleImportCodeMessage_without_repoUrl_witness :
  let event := {| type := "gitstory-import-code-message";
                  detail := JObject [("url", JString "https://github.com/a/b")] |} in
  GetV (P := Reference.platform) (detail event) "repoUrl" = JUndefined /\
  calls (handleImportCodeMessage (P := Reference.platform) event) =
  [CallSetTimeout 200;
   CallSetValue (hiddenTag ++ "I want to explore this GitHub repository: undefined");
   CallSetTimeout 50;
   CallSubmit {| streamResponse := Some true; resourceNames := ∅ |}].
Proof.
  intros event. split; [reflexivity|].
  refine (handleImportCodeMessage_without_repoUrl (P := Reference.platform)
            event _ _ eq_refl); discriminate.
Defined.

(** ** The submit wrapper on any input *)

Section WrapperFacts.
Context `{P : Platform}.

(** The two shapes of an invocation, with what the wrapper appended. *)
Lemma submitWithRepoContext_suffix (g : Global) (value : string)
    (options : SubmitOptions) :
  (calls (submitWithRepoContext g value options) = [CallSubmit options]) \/
  (exists ctx,
      getRepoContext g = Normal (Some ctx) /\
      calls (submitWithRepoContext g value options)
      = [CallSetValue (value ++ ctx); CallSetTimeout 50; CallSubmit options]).
Proof.
  destruct (submitWithRepoContext_cases g value options)
    as [[_ H] | (ctx & Hctx & _ & H)]; [left | right; exists ctx]; auto.
Qed.

Lemma append_empty_r (s : string) : s ++ "" = s.
Proof.
  induction s as [|x s IH]; [reflexivity|].
  change (String x (s ++ "") = String x s). now rewrite IH.
Qed.

(** The context of a persisted selection, as [getRepoContext] returns it. *)
Lemma getRepoContext_of_selection (store : gmap string string)
    (s : Selection) :
  persisted store (Some s) ->
  getRepoContext (Some {| localStorage := Normal store |})
  = Normal (Some (contextOfSelection s)).
Proof.
  intros (saved & props & Hsaved & Hne & Hparse & Hholds).
  destruct (repoUrlOf_selection props s Hholds) as (url & Hurl & <-).
  apply (getRepoContext_Some_intro store saved (JObject props) url);
    assumption || discriminate.
Qed.
End WrapperFacts.

(** X7. In every invocation, with or without a context,
    [submitWithRepoContext] calls the SDK's [submit] exactly once, as its
    last call, with the options it was given, and never starts a new
    thread. *)
Theorem submitWithRepoContext_submits_once `{P : Platform}
    (g : Global) (value : string) (options : SubmitOptions) :
  let cs := calls (submitWithRepoContext g value options) in
  List.filter isSubmit cs = [CallSubmit options] /\
  last cs = Some (CallSubmit options) /\
  List.filter (fun c => match c with CallStartNewThread => true | _ => false end) cs
  = [].
Proof.
  intros cs. subst cs.
  destruct (submitWithRepoContext_suffix g value options) as [-> | (ctx & _ & ->)];
    repeat split; reflexivity.
Qed.

(** X8. [submitWithRepoContext] never rewrites what the user typed: every
    value it sets, and the value the input holds when [submit] runs, is the
    typed text followed by a suffix, and the suffix is either empty or the
    string [getRepoContext] returned. *)
Theorem submitWithRepoContext_keeps_text `{P : Platform}
    (g : Global) (value : string) (options : SubmitOptions) :
  exists suffix,
    (suffix = "" \/ getRepoContext g = Normal (Some suffix)) /\
    valueAtSubmit value (calls (submitWithRepoContext g value options))
    = Some (value ++ suffix) /\
    Forall (fun c => match c with
                     | CallSetValue v => v = value ++ suffix
                     | _ => True
                     end)
           (calls (submitWithRepoContext g value options)).
Proof.
  destruct (submitWithRepoContext_suffix g value options) as [-> | (ctx & Hctx & ->)].
  - exists "". split; [now left|]. split.
    + cbn [valueAtSubmit]. now rewrite append_empty_r.
    + repeat constructor.
  - exists ctx. split; [now right|]. split; [reflexivity|].
    repeat constructor.
Qed.

(** X9. End to end: with the JSON text of a selection saved under
    ["gitstory-repo"] and a non-empty typed text, the wrapper sets the input
    to the text followed by the context of that selection, waits 50 ms and
    submits; with nothing saved it submits the text as it is. *)
Theorem submitWithRepoContext_of_persisted `{P : Platform}
    (store : gmap string string) (sel : option Selection) (value : string)
    (options : SubmitOptions) :
  persisted store sel ->
  value <> "" ->
  calls (submitWithRepoContext (Some {| localStorage := Normal store |})
                               value options)
  = match sel with
    | Some s => [CallSetValue (value ++ contextOfSelection s);
                 CallSetTimeout 50; CallSubmit options]
    | None => [CallSubmit options]
    end.
Proof.
  intros Hp Hv. destruct sel as [s|].
  - rewrite (submitWithRepoContext_then _ value (contextOfSelection s));
      [reflexivity | | exact Hv].
    now apply getRepoContext_of_selection.
  - rewrite submitWithRepoContext_else; [reflexivity|]. left.
    rewrite getRepoContext_window, getRepoContext_try_store.
    simpl in Hp. rewrite Hp. reflexivity.
Qed.

Lemma submitWithRepoContext_of_persisted_witness :
  let store : gmap string string :=
    {[ "gitstory-repo" := Reference.selection "octocat" "hello-world" "" ]} in
  let sel := {| sel_owner := "octocat"; sel_repo := "hello-world";
                sel_branch := "" |} in
  let options := {| streamResponse := Some true; resourceNames := ∅ |} in
  persisted (P := Reference.platform) store (Some sel) /\
  calls (submitWithRepoContext (P := Reference.platform)
           (Some {| localStorage := Normal store |}) "Who wrote this?" options)
  = [CallSetValue ("Who wrote this?" ++ LF ++ LF ++
                   "[Repository Context: https://github.com/octocat/hello-world]");
     CallSetTimeout 50; CallSubmit options].
Proof.
  intros store sel options.
  assert (Hp : persisted (P := Reference.platform) store (Some sel)).
  { exists (Reference.selection "octocat" "hello-world" "").
    exists [("owner", JString "octocat"); ("repo", JString "hello-world");
            ("branch", JString "")].
    split; [reflexivity|]. split; [discriminate|]. split; [reflexivity|].
    split; [reflexivity|]. split; [reflexivity|]. left. reflexivity. }
  split; [exact Hp|].
  refine (submitWithRepoContext_of_persisted (P := Reference.platform)
            store (Some sel) "Who wrote this?" options Hp _).
  discriminate.
Defined.

(** ** The listeners over the life of the component *)

Section LifecycleFacts.
Context `{P : Platform}.

(** A dispatch while the component is mounted: what the listeners that were
    there before do, then what the component's handler for the event's type
    does. *)
Lemma dispatchEvent_committed (t : EventTarget) (ds : list (bool * bool))
    (event : CustomEvent) :
  fresh t ->
  dispatchEvent event (snd (committed ds t))
  = (dispatchEvent event t ++ ownInvocations event)%list.
Proof.
  intros Hf.
  rewrite (dispatchEvent_installed (listeners t) _ _ event (next_identity t)
             (committed_installed ds t Hf)).
  destruct t as [entries n]. reflexivity.
Qed.

Lemma unmount_fresh (others : list (string * Listener)) (m : Mounted)
    (t : EventTarget) :
  Installed others m t -> fresh (unmount m t).
Proof.
  intros [i1 i2 Hf _ _ Hc1 Hc2]. unfold unmount. rewrite Hc1, Hc2.
  now apply fresh_remove_first, fresh_remove_first.
Qed.

Lemma dispatchEvent_listeners (event : CustomEvent) (t t' : EventTarget) :
  listeners t = listeners t' -> dispatchEvent event t = dispatchEvent event t'.
Proof. unfold dispatchEvent. now intros ->. Qed.

Lemma ownInvocations_other (event : CustomEvent) :
  type event <> "gitstory-start-new-thread" ->
  type event <> "gitstory-import-code-message" ->
  ownInvocations event = [].
Proof.
  intros H1 H2. unfold ownInvocations.
  destruct (String.eqb_spec (type event) "gitstory-start-new-thread");
    [contradiction|].
  destruct (String.eqb_spec (type event) "gitstory-import-code-message");
    [contradiction|].
  reflexivity.
Qed.
End LifecycleFacts.

(** X10. While the component is mounted, however often it re-rendered, the
    window's listener list is the list from before the mount, in its order,
    followed by exactly two entries of the component, one for each of its
    two event names: re-rendering replaces listeners and never piles them
    up. *)
Theorem listeners_while_mounted `{P : Platform}
    (t : EventTarget) (ds : list (bool * bool)) :
  fresh t ->
  exists own,
    listeners (snd (committed ds t)) = (listeners t ++ own)%list /\
    (map fst own = ["gitstory-start-new-thread"; "gitstory-import-code-message"] \/
     map fst own = ["gitstory-import-code-message"; "gitstory-start-new-thread"]).
Proof.
  intros Hf.
  destruct (committed_installed ds t Hf) as [i1 i2 _ _ [Hl | Hl] _ _];
    eexists; (split; [exact Hl|]); [left | right]; reflexivity.
Qed.

Lemma listeners_while_mounted_witness :
  let t := {| listeners := []; next_identity := 0 |} in
  fresh (P := Reference.platform) t /\
  exists own,
    listeners (P := Reference.platform)
      (snd (committed [(true, true); (true, false); (true, false)] t))
    = ([] ++ own)%list /\
    (map fst own = ["gitstory-start-new-thread"; "gitstory-import-code-message"] \/
     map fst own = ["gitstory-import-code-message"; "gitstory-start-new-thread"]).
Proof.
  intros t. split; [constructor|].
  exact (listeners_while_mounted (P := Reference.platform) t
           [(true, true); (true, false); (true, false)] (List.Forall_nil _)).
Defined.

(** X11. The component listens to its two event names only: a dispatch of
    an event of any other type, while the component is mounted, runs the
    listeners that were there before and nothing of the component. *)
Theorem other_events_ignored `{P : Platform}
    (t : EventTarget) (ds : list (bool * bool)) (event : CustomEvent) :
  fresh t ->
  type event <> "gitstory-start-new-thread" ->
  type event <> "gitstory-import-code-message" ->
  dispatchEvent event (snd (committed ds t)) = dispatchEvent event t.
Proof.
  intros Hf H1 H2.
  rewrite (dispatchEvent_committed t ds event Hf).
  rewrite (ownInvocations_other event H1 H2). apply app_nil_r.
Qed.

Lemma other_events_ignored_witness :
  let t := {| listeners := []; next_identity := 0 |} in
  let event := {| type := "gitstory-repo-changed"; detail := JNull |} in
  fresh (P := Reference.platform) t /\
  dispatchEvent (P := Reference.platform) event
    (snd (committed [(true, true)] t)) = [].
Proof.
  intros t event. split; [constructor|].
  refine (other_events_ignored (P := Reference.platform) t [(true, true)] event
            (List.Forall_nil _) _ _); discriminate.
Defined.

(** X12. After the component unmounted, a dispatch of any event, its own
    two included, runs exactly what it would have run had the component
    never mounted: no call reaches the SDK through the component. *)
Theorem dispatch_after_unmount `{P : Platform}
    (t : EventTarget) (ds : list (bool * bool)) (event : CustomEvent) :
  fresh t ->
  dispatchEvent event
    (unmount (fst (committed ds t)) (snd (committed ds t)))
  = dispatchEvent event t.
Proof.
  intros Hf. apply dispatchEvent_listeners.
  apply unmount_installed, committed_installed, Hf.
Qed.

Lemma dispatch_after_unmount_witness :
  let t := {| listeners := []; next_identity := 0 |} in
  let event := {| type := "gitstory-start-new-thread"; detail := JNull |} in
  fresh (P := Reference.platform) t /\
  dispatchEvent (P := Reference.platform) event
    (unmount (fst (committed [(false, true)] t))
             (snd (committed [(false, true)] t))) = [].
Proof.
  intros t event. split; [constructor|].
  exact (dispatch_after_unmount (P := Reference.platform) t [(false, true)]
           event (List.Forall_nil _)).
Defined.

(** X13. Mounting again after an unmount (as React's strict mode does:
    mount, clean up, mount) does not double the handlers: a dispatch then
    runs the component's handler for the event's type once, after the
    listeners that were there before the first mount. *)
Theorem dispatch_after_remount `{P : Platform}
    (t : EventTarget) (ds ds' : list (bool * bool)) (event : CustomEvent) :
  fresh t ->
  let unmounted := unmount (fst (committed ds t)) (snd (committed ds t)) in
  dispatchEvent event (snd (committed ds' unmounted))
  = (dispatchEvent event t ++ ownInvocations event)%list /\
  length (ownInvocations event) <= 1.
Proof.
  intros Hf unmounted. split.
  - pose proof (committed_installed ds t Hf) as Hi.
    rewrite dispatchEvent_committed by (eapply unmount_fresh; exact Hi).
    f_equal. apply dispatchEvent_listeners.
    apply unmount_installed. exact Hi.
  - unfold ownInvocations.
    destruct (String.eqb_spec (type event) "gitstory-start-new-thread") as [E|E];
      destruct (String.eqb_spec (type event) "gitstory-import-code-message") as [E'|E'];
      cbn; try lia.
    rewrite E in E'. discriminate E'.
Qed.

Lemma dispatch_after_remount_witness :
  let t := {| listeners := []; next_identity := 0 |} in
  let event := {| type := "gitstory-start-new-thread"; detail := JNull |} in
  fresh (P := Reference.platform) t /\
  dispatchEvent (P := Reference.platform) event
    (snd (committed [] (unmount (fst (committed [] t)) (snd (committed [] t)))))
  = [{| calls := [CallStartNewThread]; outcome := Normal tt |}].
Proof.
  intros t event. split; [constructor|].
  exact (proj1 (dispatch_after_remount (P := Reference.platform) t [] [] event
                  (List.Forall_nil _))).
Defined.

(** ** The rendered tree *)

Section RenderFacts.
Context {Ref Variant CallerValue : Type}.

Lemma closures_spread (props : list (string * CallerValue)) :
  flat_map (fun kv : string * Attr => closureOf (snd kv))
           (spread (Ref := Ref) (Variant := Variant) props) = [].
Proof. induction props as [|kv props IH]; [reflexivity | exact IH]. Qed.

Lemma closuresPassed_threadContainer (className : option string)
    (variant : option Variant) (props : list (string * CallerValue))
    (mergedRef : Ref) :
  closuresPassed (threadContainer className variant props mergedRef) = [].
Proof.
  unfold closuresPassed, threadContainer.
  cbn [elements flat_map viewAttrs app closureOf snd].
  rewrite flat_map_app, closures_spread. reflexivity.
Qed.

Lemma closuresPassed_node (tag : string) (attrs : list (string * Attr))
    (children : list (View (Ref := Ref) (Variant := Variant)
                           (CallerValue := CallerValue))) :
  closuresPassed (ViewNode tag attrs children) =
  (flat_map (fun kv => closureOf (snd kv)) attrs
   ++ flat_map closuresPassed children)%list.
Proof.
  unfold closuresPassed. cbn [elements flat_map viewAttrs]. f_equal.
  induction children as [|c children IH]; [reflexivity|].
  cbn [flat_map]. rewrite flat_map_app. now rewrite IH.
Qed.
End RenderFacts.

(** X14. The history sidebar is rendered once, before the thread container,
    when the history position is ["left"]; once, after it, when the
    position is ["right"]; and not at all for any other position. The
    thread container and the message input are rendered exactly once in
    every case. *)
Theorem render_sidebar_placement {Ref Variant CallerValue : Type}
    (className : option string) (variant : option Variant)
    (props : list (string * CallerValue)) (mergedRef : Ref)
    (historyPosition : string) :
  let view := render className variant props mergedRef historyPosition in
  map viewTag (viewChildren view) =
    (if String.eqb historyPosition "left"
     then ["ThreadHistory"; "ThreadContainer"]
     else if String.eqb historyPosition "right"
          then ["ThreadContainer"; "ThreadHistory"]
          else ["ThreadContainer"]) /\
  countTag "ThreadHistory" view =
    (if String.eqb historyPosition "left" || String.eqb historyPosition "right"
     then 1 else 0) /\
  countTag "ThreadContainer" view = 1 /\
  countTag "MessageInput" view = 1.
Proof.
  intros view. subst view. unfold render.
  destruct (String.eqb_spec historyPosition "left") as [-> | Hl].
  - repeat split; reflexivity.
  - destruct (String.eqb_spec historyPosition "right") as [-> | Hr];
      repeat split; reflexivity.
Qed.

(** X15. The tree the component returns hands none of the component's own
    functions to any element, whatever the props and the history position:
    [MessageInput] is rendered without attributes, so neither
    [submitWithRepoContext] nor [getRepoContext] is passed to the input (or
    to anything else). *)
Theorem render_passes_no_closure {Ref Variant CallerValue : Type}
    (className : option string) (variant : option Variant)
    (props : list (string * CallerValue)) (mergedRef : Ref)
    (historyPosition : string) :
  let view := render className variant props mergedRef historyPosition in
  closuresPassed view = [] /\
  Forall (fun e => viewTag e = "MessageInput" -> viewAttrs e = [])
         (elements view).
Proof.
  intros view. subst view. split.
  - unfold render. rewrite closuresPassed_node. cbn [flat_map closureOf snd app].
    rewrite !flat_map_app. cbn [flat_map].
    rewrite closuresPassed_threadContainer.
    destruct (String.eqb historyPosition "left"),
             (String.eqb historyPosition "right"); reflexivity.
  - unfold render.
    destruct (String.eqb historyPosition "left"),
             (String.eqb historyPosition "right");
      cbn [when app elements flat_map threadHistorySidebar threadContainer
           messageInput];
      repeat (apply List.Forall_cons; [cbn; intros; (reflexivity || discriminate)|]);
      apply List.Forall_nil.
Qed.

(** ** A branch that is there but empty *)

(** X16. The branch part is guarded by truthiness, not by presence: for a
    saved object with string [owner] and [repo] whose [branch] is null,
    false, the empty string or missing, [getRepoContext] returns the
    context without [/tree/...]; no [/tree/null] or [/tree/false] is ever
    built. *)
Theorem getRepoContext_falsy_branch `{P : Platform}
    (store : gmap string string) (saved : string)
    (props : list (string * Value)) (owner repo : string) :
  store !! "gitstory-repo" = Some saved ->
  saved <> "" ->
  JSON_parse saved = Normal (JObject props) ->
  assoc "owner" props = Some (JString owner) ->
  assoc "repo" props = Some (JString repo) ->
  assoc "branch" props = Some JNull \/
  assoc "branch" props = Some (JBool false) \/
  assoc "branch" props = Some (JString "") \/
  assoc "branch" props = None ->
  getRepoContext (Some {| localStorage := Normal store |})
  = Normal (Some (LF ++ LF ++ "[Repository Context: https://github.com/"
                  ++ owner ++ "/" ++ repo ++ "]")).
Proof.
  intros Hsaved Hne Hparse Ho Hr Hb.
  rewrite (getRepoContext_Some_intro store saved (JObject props)
             ("https://github.com/" ++ owner ++ "/" ++ repo));
    try (assumption || discriminate).
  - unfold repoContextOf. rewrite !append_assoc. reflexivity.
  - unfold repoUrlOf, GetV. rewrite Ho, Hr. simpl default.
    cbn [ToString mbind completion_bind cbind].
    destruct Hb as [Hb | [Hb | [Hb | Hb]]]; rewrite Hb; simpl;
      now rewrite append_nil_r.
Qed.

Lemma getRepoContext_falsy_branch_witness :
  let saved := ("{" ++ Reference.quoted "owner" ++ ":" ++ Reference.quoted "octocat"
                ++ "," ++ Reference.quoted "repo" ++ ":" ++ Reference.quoted "hello-world"
                ++ "," ++ Reference.quoted "branch" ++ ":null}") in
  JSON_parse (Platform := Reference.platform) saved
  = Normal (JObject [("owner", JString "octocat"); ("repo", JString "hello-world");
                     ("branch", JNull)]) /\
  getRepoContext (P := Reference.platform) (Reference.windowWith saved)
  = Normal (Some (LF ++ LF ++
      "[Repository Context: https://github.com/octocat/hello-world]")).
Proof.
  intros saved. split; [reflexivity|].
  refine (getRepoContext_falsy_branch (P := Reference.platform)
            {[ "gitstory-repo" := saved ]} saved
            [("owner", JString "octocat"); ("repo", JString "hello-world");
             ("branch", JNull)] "octocat" "hello-world"
            eq_refl _ eq_refl eq_refl eq_refl (or_introl eq_refl)).
  discriminate.
Defined.

(** ** The submit wrapper is never wired *)

Section WiringFacts.
Context {Ref Variant CallerValue : Type}.

Lemma closuresPassed_render (className : option string)
    (variant : option Variant) (props : list (string * CallerValue))
    (mergedRef : Ref) (historyPosition : string) :
  closuresPassed (render className variant props mergedRef historyPosition) = [].
Proof.
  unfold render. rewrite closuresPassed_node. cbn [flat_map closureOf snd app].
  rewrite !flat_map_app. cbn [flat_map].
  rewrite closuresPassed_threadContainer.
  destruct (String.eqb historyPosition "left"),
           (String.eqb historyPosition "right"); reflexivity.
Qed.
End WiringFacts.

(** C1. The code does not do what the claim says, for any message: the
    wrapper that appends the context is handed to nobody. Whatever the
    props and the history position, the functions of the component that
    code outside it can come to call are the two event handlers and nothing
    else; [submitWithRepoContext] is not among them, nor is
    [getRepoContext], which only the wrapper calls. The [MessageInput]
    element gets no attribute at all, so a submit made through the message
    input cannot run the wrapper. *)
Theorem submitWithRepoContext_unreachable {Ref Variant CallerValue : Type}
    (className : option string) (variant : option Variant)
    (props : list (string * CallerValue)) (mergedRef : Ref)
    (historyPosition : string) :
  let view := render className variant props mergedRef historyPosition in
  closuresReachable view
  = [ClosureHandleStartNewThread; ClosureHandleImportCodeMessage] /\
  ~ In ClosureSubmitWithRepoContext (closuresReachable view) /\
  ~ In ClosureGetRepoContext (closuresReachable view) /\
  List.filter (fun e => String.eqb (viewTag e) "MessageInput") (elements view)
  = [messageInput].
Proof.
  intros view. subst view.
  assert (Hreach :
            closuresReachable
              (render className variant props mergedRef historyPosition)
            = [ClosureHandleStartNewThread; ClosureHandleImportCodeMessage]).
  { unfold closuresReachable. rewrite closuresPassed_render. reflexivity. }
  rewrite Hreach. repeat split.
  - intros [H | [H | []]]; discriminate H.
  - intros [H | [H | []]]; discriminate H.
  - unfold render.
    destruct (String.eqb historyPosition "left"),
             (String.eqb historyPosition "right"); reflexivity.
Qed.
